(** * The image-generation API of [API_Vercel_Setup/main.py]

    A shallow embedding of the FastAPI application: the uploader
    [upload_to_imgbb], the background remover [remove_background], the
    generation caller [generate_image], and the two routes [api_home] and
    [generate_image_api].

    The program is an orchestration of three outside services (the
    generation model, the background-removal routine and the image host).
    Their answers are not decided by the program, so they are the fields of
    a record [Externals]; every theorem quantifies over it.  A call to a
    service is logged, together with its answer, in a chronological
    [trace]; the service sees the trace of everything that happened before
    the call, so that its answers may change from call to call.  The
    program itself is written in a state-and-exception monad over that
    trace: an exception stops the program but keeps the trace, because a
    call already made to the outside world stays made. *)

From Stdlib Require Import List String Ascii ZArith QArith Qround Qabs Lia Bool.
Import ListNotations.
#[local] Set Warnings "-register-all".
Local Open Scope string_scope.
Local Open Scope Z_scope.

(** ** Values *)

Definition bytes := list Byte.byte.

(** The floats that are no number of a JSON text, which Python's parser
    takes all the same: [Infinity], [-Infinity] and [NaN], the first two
    also from a literal too large for a float, such as [1e999]. *)
Inductive nonfinite : Type :=
| PosInf
| NegInf
| NaN.

(** What [response.json()] yields: Python's image of a JSON text.  An
    integer literal becomes an [int], any other number a [float], whose
    value is a rational when it is finite; a [dict] is kept as an
    association list in insertion order, which is also the order in which
    [JSONResponse] serialises it.  A [str] is text; one that holds a lone
    surrogate, which the parser makes of an escape such as ["\ud800"] and
    which UTF-8 cannot encode, is kept apart as [JSurrogateStr], with its
    text in escaped form.  The keys of a [dict] are taken to be text: the
    program looks up ["success"], ["data"] and ["url"] and no other. *)
Inductive json : Type :=
| JNull
| JBool (b : bool)
| JInt (z : Z)
| JFloat (q : Q)
| JNonFinite (f : nonfinite)
| JStr (s : string)
| JSurrogateStr (escaped : string)
| JArr (items : list json)
| JObj (fields : list (string * json)).

(** [d.get(k)] and [k in d] on a dict. *)
Fixpoint dict_get (k : string) (d : list (string * json)) : option json :=
  match d with
  | [] => None
  | (k', v) :: rest => if String.eqb k k' then Some v else dict_get k rest
  end.

(** Python truthiness, as tested by [if data.get("success")].  A string
    that holds a surrogate is not empty. *)
Definition truthy (v : json) : bool :=
  match v with
  | JNull => false
  | JBool b => b
  | JInt z => negb (z =? 0)
  | JFloat q => negb (Qnum q =? 0)
  | JNonFinite _ => true
  | JStr s => match s with EmptyString => false | String _ _ => true end
  | JSurrogateStr _ => true
  | JArr items => match items with [] => false | _ :: _ => true end
  | JObj fields => match fields with [] => false | _ :: _ => true end
  end.

(** The name Python prints for the type of a value in its error messages. *)
Definition type_name (v : json) : string :=
  match v with
  | JNull => "NoneType"
  | JBool _ => "bool"
  | JInt _ => "int"
  | JFloat _ => "float"
  | JNonFinite _ => "float"
  | JStr _ => "str"
  | JSurrogateStr _ => "str"
  | JArr _ => "list"
  | JObj _ => "dict"
  end.

(** A decoded picture ([PIL.Image.Image]): its size and its pixel data. *)
Record image : Type := mkImage {
  width : Z;
  height : Z;
  pixels : bytes
}.

Definition size (im : image) : Z * Z := (width im, height im).

(** One part of the generation service's response.  [inline_data] is [None]
    both when the attribute is missing and when it is [None]; the test
    [hasattr(part, "inline_data") and part.inline_data is not None] does not
    tell the two apart.  Otherwise it holds the bytes of the blob,
    [part.inline_data.data], which are empty when the blob has none:
    [BytesIO(None)] is an empty buffer. *)
Record part : Type := mkPart {
  text : option string;
  inline_data : option bytes
}.

(** ** Exceptions and results *)

(** The exceptions the program can end with.  A value error carries its
    message and the value the message ends with, [JNull] when it ends with
    none. *)
Inductive exn : Type :=
| ValueError (msg : string) (payload : json)
| KeyError (key : string)
| TypeError (of_type : string)
| AttributeError (of_type attr : string)
| UnicodeEncodeError (codec : string)
| UnidentifiedImageError
| ServiceError (info : string).

Inductive result (A : Type) : Type :=
| Ok (a : A)
| Raise (e : exn).
Arguments Ok {A} a.
Arguments Raise {A} e.

Definition is_ok {A} (r : result A) : bool :=
  match r with Ok _ => true | Raise _ => false end.

(** ** The outside world *)

Record genai_client : Type := mkClient { api_key : option string }.

(** The form posted to the image host. *)
Record upload_form : Type := mkForm {
  form_key : option string;
  form_image : string;
  form_name : string
}.

(** A completed call to an outside service, with its answer.  Of the
    generation service's response the program reads [response.parts] only:
    the list of the parts, or [None] when the response has no content (no
    candidate, or a candidate that was blocked). *)
Inductive event : Type :=
| GenerateContent (c : genai_client) (model prompt : string) (img : image)
                  (answer : result (option (list part)))
| RembgRemove (png : bytes) (answer : result bytes)
| ImgbbPost (form : upload_form) (answer : result json).

(** Oldest call first. *)
Definition trace := list event.

Record Externals : Type := mkExternals {
  (** [genai.Client(api_key=...)], run once when the module is loaded *)
  genai_Client : option string -> result genai_client;
  (** [client.models.generate_content(model=..., contents=[prompt, image])],
      then [.parts] *)
  generate_content : trace -> genai_client -> string -> string -> image ->
                     result (option (list part));
  (** [rembg.remove(png_bytes)] *)
  remove : trace -> bytes -> result bytes;
  (** [requests.post(url, data=form).json()] *)
  requests_post_json : trace -> upload_form -> result json;
  (** [uuid.uuid4()], printed *)
  uuid4 : trace -> string;
  (** [Image.open(BytesIO(b))] *)
  Image_open : bytes -> result image;
  (** [im.save(buffer, format="PNG"); buffer.getvalue()] *)
  save_png : image -> bytes;
  (** [base64.b64encode(b).decode()] *)
  b64encode : bytes -> string;
  (** the pixel data Pillow computes when it resamples to a new size *)
  resample : image -> Z * Z -> bytes
}.

(** ** The monad of the program *)

Definition M (A : Type) : Type := trace -> result A * trace.

Definition ret {A} (a : A) : M A := fun t => (Ok a, t).

Definition raise {A} (e : exn) : M A := fun t => (Raise e, t).

Definition bind {A B} (m : M A) (k : A -> M B) : M B :=
  fun t =>
    match m t with
    | (Ok a, t') => k a t'
    | (Raise e, t') => (Raise e, t')
    end.

Definition lift {A} (r : result A) : M A := fun t => (r, t).

Notation "x <- m ;; k" := (bind m (fun x => k))
  (at level 61, m at next level, right associativity).

(** The calls that were made during a run started at history [t0]. *)
Definition issued (t0 t : trace) : list event := skipn (List.length t0) t.

(** ** Pillow's resizing, on sizes

    [Image.resize] and [Image.thumbnail] are Pillow's, not the
    repository's.  Only the size of their result matters to the program's
    contract; the pixel data is whatever [resample] computes. *)

Section Resizing.

Variable W : Externals.

(** Modelled from the spec: [Image.resize(size)] is Pillow library code, not
    part of the repository.  The spec calls it a direct resize to a fixed
    canvas: the result has the requested size, whatever the source's. *)
Definition resize (im : image) (sz : Z * Z) : image :=
  {| width := fst sz; height := snd sz; pixels := resample W im sz |}.

(** Python's [min(a, b, key=key)]: the first of the two unless the second
    has a strictly smaller key. *)
Definition py_min_by (key : Z -> Q) (a b : Z) : Z :=
  if Qle_bool (key a) (key b) then a else b.

(** [max(min(math.floor(number), math.ceil(number), key=key), 1)] *)
Definition round_aspect (number : Q) (key : Z -> Q) : Z :=
  Z.max (py_min_by key (Qfloor number) (Qceiling number)) 1.

(** Modelled from the spec: the size computation of [Image.thumbnail(size)],
    Pillow library code that is not part of the repository.  The spec asks
    for a preview that fits the box, scaled proportionally and never
    enlarged; Pillow realises it in whole pixels as written here: nothing
    to do when the picture already fits, otherwise the axis that binds takes
    the box's length and the other one the neighbouring integer (floor or
    ceiling of the proportional length) whose ratio is closest, and at
    least 1.  Pillow computes in floating point; the lengths are exact
    rationals here.  The properties below are about pictures of positive
    width and height, as decoded pictures are; Python's division by a zero
    height is not modelled. *)
Definition preserve_aspect_ratio (provided_size : Z * Z) (im : image)
  : option (Z * Z) :=
  let (x, y) := provided_size in
  if (width im <=? x) && (height im <=? y) then None
  else
    let aspect := (inject_Z (width im) / inject_Z (height im))%Q in
    if Qle_bool aspect (inject_Z x / inject_Z y) then
      Some (round_aspect (inject_Z y * aspect)
              (fun n => Qabs (aspect - inject_Z n / inject_Z y)), y)
    else
      Some (x, round_aspect (inject_Z x / aspect)
                 (fun n => if n =? 0 then 0%Q
                           else Qabs (aspect - inject_Z x / inject_Z n))).

Definition size_eqb (a b : Z * Z) : bool :=
  (fst a =? fst b) && (snd a =? snd b).

(** Modelled from the spec: [Image.thumbnail(size)] (Pillow) changes the
    picture in place; here it returns the changed picture. *)
Definition thumbnail (im : image) (sz : Z * Z) : image :=
  match preserve_aspect_ratio sz im with
  | None => im
  | Some final_size =>
      if size_eqb (size im) final_size then im else resize im final_size
  end.

(** [im.copy()]: a picture of its own, so that [thumbnail] on the copy
    leaves the original as it was.  Pictures are values here. *)
Definition copy (im : image) : image := im.

(** The two variants the request handler derives from a picture whose
    background was removed. *)
Definition preview_of (img_no_bg : image) : image :=
  thumbnail (copy img_no_bg) (400, 400).

Definition highres_of (img_no_bg : image) : image :=
  resize (copy img_no_bg) (3000, 3600).

End Resizing.

(** ** The program *)

(** The module's globals: [client] and [IMGBB_API_KEY]. *)
Record module_state : Type := mkState {
  client : genai_client;
  IMGBB_API_KEY : option string
}.

(** A response of the web framework. *)
Record http_response : Type := mkResponse {
  status_code : Z;
  content : json
}.

(** The first float of a value, in the order of serialisation, that is no
    number of JSON. *)
Fixpoint first_nonfinite (v : json) : option nonfinite :=
  match v with
  | JNonFinite f => Some f
  | JArr items =>
      (fix scan (l : list json) : option nonfinite :=
         match l with
         | [] => None
         | x :: rest =>
             match first_nonfinite x with
             | Some f => Some f
             | None => scan rest
             end
         end) items
  | JObj fields =>
      (fix scan (l : list (string * json)) : option nonfinite :=
         match l with
         | [] => None
         | (_, x) :: rest =>
             match first_nonfinite x with
             | Some f => Some f
             | None => scan rest
             end
         end) fields
  | _ => None
  end.

(** No string of the value holds a lone surrogate. *)
Fixpoint encodable (v : json) : bool :=
  match v with
  | JSurrogateStr _ => false
  | JArr items => forallb encodable items
  | JObj fields => forallb (fun kv => encodable (snd kv)) fields
  | _ => true
  end.

(** [JSONResponse(content=...)], the framework's: the body is rendered when
    the response is built, by
    [json.dumps(content, ensure_ascii=False, allow_nan=False, ...)] and then
    [.encode("utf-8")].  The first raises a value error on a float that is
    no number of JSON, the second a Unicode error on a lone surrogate.  The
    status is 200 unless told otherwise. *)
Definition JSONResponse (c : json) : result http_response :=
  match first_nonfinite c with
  | Some f =>
      Raise (ValueError "Out of range float values are not JSON compliant: "
               (JNonFinite f))
  | None =>
      if encodable c then Ok {| status_code := 200; content := c |}
      else Raise (UnicodeEncodeError "utf-8")
  end.

Definition default_prompt1 : string := "
    Create a clean Pixar-style cartoon illustration of the pet in the uploaded photo.
Keep the full body, original pose, markings, proportions, and aspect ratio.
Use soft shading and vibrant but natural colors.
Remove the entire background and output a fully transparent PNG with clean edges.
    ".

Definition default_prompt2 : string := "
    Transform the uploaded pet photo into a bright Pixar-inspired character.
Keep all body parts visible, maintain the pose, markings, and original aspect ratio.
Use glossy highlights and 3D depth while staying natural.
Return a transparent PNG with a perfect cut-out.
    ".

Definition welcome : string :=
  "Welcome to the Image Generation API. Use the /api/generate endpoint to create images.".

(** [d.get(k)]: only a dict has the method. *)
Definition py_get (d : json) (k : string) : result (option json) :=
  match d with
  | JObj fields => Ok (dict_get k fields)
  | _ => Raise (AttributeError (type_name d) "get")
  end.

(** [v[k]] with a string [k]. *)
Definition py_getitem (v : json) (k : string) : result json :=
  match v with
  | JObj fields =>
      match dict_get k fields with
      | Some x => Ok x
      | None => Raise (KeyError k)
      end
  | _ => Raise (TypeError (type_name v))
  end.

Definition truthy_opt (v : option json) : bool :=
  match v with
  | Some x => truthy x
  | None => false
  end.

(** Lines 41-45: what [upload_to_imgbb] makes of the host's answer. *)
Definition read_upload_answer (data : json) : result json :=
  match py_get data "success" with
  | Raise e => Raise e
  | Ok success =>
      if truthy_opt success then
        match py_getitem data "data" with
        | Raise e => Raise e
        | Ok d => py_getitem d "url"
        end
      else Raise (ValueError "imgBB upload failed: " data)
  end.

(** The loop of [generate_image] over [response.parts]. *)
Fixpoint first_inline_image (image_open : bytes -> result image)
    (parts : list part) : result (option image) :=
  match parts with
  | [] => Ok None
  | p :: rest =>
      match inline_data p with
      | Some img_bytes =>
          match image_open img_bytes with
          | Ok img => Ok (Some img)
          | Raise e => Raise e
          end
      | None => first_inline_image image_open rest
      end
  end.

(** [for part in response.parts: ...] and the [return None] after it. *)
Definition scan_parts (image_open : bytes -> result image)
    (response_parts : option (list part)) : result (option image) :=
  match response_parts with
  | Some parts => first_inline_image image_open parts
  | None => Raise (TypeError "NoneType")
  end.

Section Program.

Variable W : Externals.

(** Module level, lines 18-21. *)
Definition load_module (getenv : string -> option string)
  : result module_state :=
  match genai_Client W (getenv "GEMINI_KEY") with
  | Ok c => Ok {| client := c; IMGBB_API_KEY := getenv "IMGBB_KEY" |}
  | Raise e => Raise e
  end.

Variable st : module_state.

(** The three calls to the outside; each one is logged with its answer. *)
Definition call_generate_content (model prompt : string) (img : image)
  : M (option (list part)) :=
  fun t =>
    let answer := generate_content W t (client st) model prompt img in
    (answer, (t ++ [GenerateContent (client st) model prompt img answer])%list).

Definition call_remove (png : bytes) : M bytes :=
  fun t =>
    let answer := remove W t png in
    (answer, (t ++ [RembgRemove png answer])%list).

(** The [data=] of the post, lines 34-38; the name is drawn when the form
    is built. *)
Definition imgbb_form (img_base64 : string) (t : trace) : upload_form :=
  {| form_key := IMGBB_API_KEY st;
     form_image := img_base64;
     form_name := ("generated_" ++ uuid4 W t)%string |}.

Definition call_requests_post (img_base64 : string) : M json :=
  fun t =>
    let form := imgbb_form img_base64 t in
    let answer := requests_post_json W t form in
    (answer, (t ++ [ImgbbPost form answer])%list).

(** Lines 26-45. *)
Definition upload_to_imgbb (pil_image : image) : M json :=
  let buffer := save_png W pil_image in
  let img_base64 := b64encode W buffer in
  data <- call_requests_post img_base64 ;;
  lift (read_upload_answer data).

(** Lines 50-56.  The argument may be Python's [None], which has no
    [save]. *)
Definition remove_background (pil_image : option image) : M image :=
  match pil_image with
  | None => raise (AttributeError "NoneType" "save")
  | Some im =>
      let img_bytes := save_png W im in
      output_bytes <- call_remove img_bytes ;;
      lift (Image_open W output_bytes)
  end.

(** Lines 61-71.  The loop of line 66 is over [response.parts]; over
    [None] it raises a type error, [None] being no iterable. *)
Definition generate_image (prompt : string) (input_image : image)
  : M (option image) :=
  response_parts <-
    call_generate_content "gemini-2.5-flash-image" prompt input_image ;;
  lift (scan_parts (Image_open W) response_parts).

(** Lines 74-76.  The handler returns the string; the framework answers
    with it as the content of a [JSONResponse], its default response. *)
Definition api_home : M http_response :=
  lift (JSONResponse (JStr welcome)).

(** One record of the response, lines 125-129. *)
Definition variation_record (i : Z) (preview_url highres_url : json) : json :=
  JObj [("variation", JInt i);
        ("preview_url", preview_url);
        ("highres_url", highres_url)].

(** The loop of lines 108-129 over [enumerate([img1, img2], start=1)]. *)
Fixpoint variations_loop (i : Z) (imgs : list (option image))
    (response_data : list json) : M (list json) :=
  match imgs with
  | [] => ret response_data
  | img :: rest =>
      img_no_bg <- remove_background img ;;
      let preview_img := preview_of W img_no_bg in
      let highres_img := highres_of W img_no_bg in
      preview_url <- upload_to_imgbb preview_img ;;
      highres_url <- upload_to_imgbb highres_img ;;
      variations_loop (i + 1) rest
        (response_data ++ [variation_record i preview_url highres_url])%list
  end.

(** Lines 81-131. *)
Definition generate_image_api (file_bytes : bytes) (prompt1 prompt2 : string)
  : M http_response :=
  input_image <- lift (Image_open W file_bytes) ;;
  img1 <- generate_image prompt1 input_image ;;
  img2 <- generate_image prompt2 input_image ;;
  response_data <- variations_loop 1 [img1; img2] [] ;;
  lift (JSONResponse (JObj [("images", JArr response_data)])).

(** The two routes of the application.  A prompt that the request leaves
    out takes its default. *)
Inductive http_request : Type :=
| GET_root
| POST_api_generate (file : bytes) (prompt1 prompt2 : option string).

Definition or_default (p : option string) (d : string) : string :=
  match p with
  | Some s => s
  | None => d
  end.

Definition route (req : http_request) : M http_response :=
  match req with
  | GET_root => api_home
  | POST_api_generate file p1 p2 =>
      generate_image_api file (or_default p1 default_prompt1)
                              (or_default p2 default_prompt2)
  end.

(** Modelled from the spec: the web framework (FastAPI) is not part of the
    repository; it answers an exception that no handler catches with a
    generic server error, status 500, whose body is the text kept here as a
    string. *)
Definition server_error : http_response :=
  {| status_code := 500; content := JStr "Internal Server Error" |}.

Definition serve (req : http_request) (t : trace) : http_response * trace :=
  match route req t with
  | (Ok resp, t') => (resp, t')
  | (Raise _, t') => (server_error, t')
  end.

End Program.

(** The application as deployed: the module is loaded, lines 18-21, and then
    requests are served; a module that does not load serves none. *)
Definition deployed (W : Externals) (getenv : string -> option string)
    (req : http_request) (t : trace) : result (http_response * trace) :=
  match load_module W getenv with
  | Ok st => Ok (serve W st req t)
  | Raise x => Raise x
  end.

(** ** Vocabulary of the properties *)

(** Two pictures have the same aspect ratio: width to height, compared
    without division. *)
Definition same_aspect_ratio (a b : image) : Prop :=
  width a * height b = width b * height a.

(** The preview of a picture as the specification words it: inside the box,
    of the source's aspect ratio, and the source itself when that fits. *)
Definition preview_as_claimed (W : Externals) (im : image) : Prop :=
  let p := preview_of W im in
  width p <= 400 /\ height p <= 400 /\
  same_aspect_ratio p im /\
  (width im <= 400 -> height im <= 400 -> size p = size im).

(** What a call was, without its arguments' detail and without its answer. *)
Inductive label : Type :=
| LGenerate (prompt : string)
| LRemove
| LUpload.

Definition label_of (e : event) : label :=
  match e with
  | GenerateContent _ _ prompt _ _ => LGenerate prompt
  | RembgRemove _ _ => LRemove
  | ImgbbPost _ _ => LUpload
  end.

(** The order of the calls of one request. *)
Definition schedule (prompt1 prompt2 : string) : list label :=
  [LGenerate prompt1; LGenerate prompt2;
   LRemove; LUpload; LUpload;
   LRemove; LUpload; LUpload].

(** The answer logged with a call is the one the service gives at history
    [t]. *)
Definition answered (W : Externals) (t : trace) (e : event) : Prop :=
  match e with
  | GenerateContent c model prompt img answer =>
      answer = generate_content W t c model prompt img
  | RembgRemove png answer => answer = remove W t png
  | ImgbbPost form answer => answer = requests_post_json W t form
  end.

(** The calls [evs] were made one after the other from history [t]: each
    was put to its service when all the calls before it had been answered,
    those answers being part of the history the service sees. *)
Fixpoint sequential (W : Externals) (t : trace) (evs : list event) : Prop :=
  match evs with
  | [] => True
  | e :: rest => answered W t e /\ sequential W (t ++ [e])%list rest
  end.

(** The exception, if any, with which the function that made the call
    ends: the service's own, or the one raised on reading its answer. *)
Definition verdict (W : Externals) (e : event) : option exn :=
  match e with
  | GenerateContent _ _ _ _ (Ok response_parts) =>
      match scan_parts (Image_open W) response_parts with
      | Ok _ => None
      | Raise x => Some x
      end
  | RembgRemove _ (Ok out) =>
      match Image_open W out with
      | Ok _ => None
      | Raise x => Some x
      end
  | ImgbbPost _ (Ok data) =>
      match read_upload_answer data with
      | Ok _ => None
      | Raise x => Some x
      end
  | GenerateContent _ _ _ _ (Raise x) => Some x
  | RembgRemove _ (Raise x) => Some x
  | ImgbbPost _ (Raise x) => Some x
  end.

(** A call passed when the function that made it went on. *)
Definition passes (W : Externals) (e : event) : Prop := verdict W e = None.

(** The description of a generation call that went well and of what the
    generation caller made of it. *)
Definition generation_of (W : Externals) (st : module_state) (prompt : string)
    (input_image : image) (e : event) (picture : option image) : Prop :=
  exists parts,
    e = GenerateContent (client st) "gemini-2.5-flash-image" prompt
          input_image (Ok (Some parts)) /\
    first_inline_image (Image_open W) parts = Ok picture.

(** A generation whose response has parts, none of them with inline
    data. *)
Definition pictureless (e : event) : Prop :=
  exists c model prompt img parts,
    e = GenerateContent c model prompt img (Ok (Some parts)) /\
    Forall (fun p => inline_data p = None) parts.

(** A generation whose response has no parts at all. *)
Definition partless (e : event) : Prop :=
  exists c model prompt img,
    e = GenerateContent c model prompt img (Ok None).

(** The description of a removal that went well, and of an upload that went
    well, with the URL read from the host's answer. *)
Definition removal_of (W : Externals) (picture : image) (e : event)
    (img_no_bg : image) : Prop :=
  exists out,
    e = RembgRemove (save_png W picture) (Ok out) /\
    Image_open W out = Ok img_no_bg.

Definition upload_of (W : Externals) (pil_image : image) (e : event)
    (url : json) : Prop :=
  exists form data,
    e = ImgbbPost form (Ok data) /\
    form_image form = b64encode W (save_png W pil_image) /\
    read_upload_answer data = Ok url.

(** The calls and the response of a request that went through: two
    generations, then for each variation in turn the removal of the
    background, the upload of the preview and the upload of the
    high-resolution variant. *)
Definition complete_run (W : Externals) (st : module_state) (file : bytes)
    (prompt1 prompt2 : string) (evs : list event) (resp : http_response)
  : Prop :=
  exists input_image e1 img1 e2 img2
         r1 img_no_bg1 p1 u1 h1 u2
         r2 img_no_bg2 p2 u3 h2 u4,
    Image_open W file = Ok input_image /\
    evs = [e1; e2; r1; p1; h1; r2; p2; h2] /\
    generation_of W st prompt1 input_image e1 (Some img1) /\
    generation_of W st prompt2 input_image e2 (Some img2) /\
    removal_of W img1 r1 img_no_bg1 /\
    upload_of W (preview_of W img_no_bg1) p1 u1 /\
    upload_of W (highres_of W img_no_bg1) h1 u2 /\
    removal_of W img2 r2 img_no_bg2 /\
    upload_of W (preview_of W img_no_bg2) p2 u3 /\
    upload_of W (highres_of W img_no_bg2) h2 u4 /\
    JSONResponse
      (JObj [("images", JArr [variation_record 1 u1 u2;
                              variation_record 2 u3 u4])])
    = Ok resp.

(** The URLs that the uploads of a run gave, in the order of the calls. *)
Definition hosted_urls (evs : list event) : list json :=
  flat_map (fun e =>
              match e with
              | ImgbbPost _ (Ok data) =>
                  match read_upload_answer data with
                  | Ok url => [url]
                  | Raise _ => []
                  end
              | _ => []
              end) evs.

(** The body of the response, from the four URLs in the order of their
    uploads. *)
Definition response_body (urls : list json) : json :=
  match urls with
  | [u1; u2; u3; u4] =>
      JObj [("images", JArr [variation_record 1 u1 u2;
                             variation_record 2 u3 u4])]
  | _ => JObj [("images", JArr [])]
  end.

(** What holds of every run of the request handler from history [t0]: the
    calls are made one after the other in the order of the [schedule]; a
    call that fails is the last one and its exception is the handler's; a
    generation without a picture makes the handler fail; a run that returns
    is a [complete_run]; a run that fails does so on the uploaded file, on a
    call, on a generation without a picture, or on the rendering of the
    response. *)
Definition run_facts (W : Externals) (st : module_state) (file : bytes)
    (prompt1 prompt2 : string) (t0 : trace)
    (run : result http_response * trace) : Prop :=
  exists evs,
    snd run = (t0 ++ evs)%list /\
    sequential W t0 evs /\
    (exists rest, schedule prompt1 prompt2 = (map label_of evs ++ rest)%list) /\
    (forall e x, In e evs -> verdict W e = Some x ->
       fst run = Raise x /\
       exists pre, evs = (pre ++ [e])%list /\ Forall (passes W) pre) /\
    (forall e, In e evs -> pictureless e ->
       exists x, fst run = Raise x /\
         (Forall (passes W) evs -> x = AttributeError "NoneType" "save")) /\
    (forall resp, fst run = Ok resp ->
       complete_run W st file prompt1 prompt2 evs resp) /\
    (forall x, fst run = Raise x ->
       (evs = [] /\ Image_open W file = Raise x) \/
       (exists e, In e evs /\ verdict W e = Some x) \/
       (exists e, In e evs /\ pictureless e) \/
       (List.length evs = 8%nat /\ Forall (passes W) evs /\
        JSONResponse (response_body (hosted_urls evs)) = Raise x)).

Definition is_upload (e : event) : bool :=
  match e with
  | ImgbbPost _ _ => true
  | _ => false
  end.

(** An upload that the host took: the uploader got a URL out of the
    answer. *)
Definition hosted (e : event) : Prop :=
  exists form data url,
    e = ImgbbPost form (Ok data) /\ read_upload_answer data = Ok url.

(** An upload whose answer, a JSON object, does not report success. *)
Definition refused (e : event) (payload : json) : Prop :=
  exists form fields,
    e = ImgbbPost form (Ok payload) /\ payload = JObj fields /\
    truthy_opt (dict_get "success" fields) = false.

Definition is_type_error {A} (r : result A) : bool :=
  match r with
  | Raise (TypeError _) => true
  | _ => false
  end.

Definition is_key_error {A} (r : result A) : bool :=
  match r with
  | Raise (KeyError _) => true
  | _ => false
  end.

Definition is_value_error {A} (r : result A) : bool :=
  match r with
  | Raise (ValueError _ _) => true
  | _ => false
  end.

(** A call succeeded: the generation gave a response with a picture in it,
    the removal gave bytes that decode, the host reported success and gave a
    non-empty string as URL. *)
Definition nonempty_url (v : json) : bool :=
  match v with
  | JStr (String _ _) => true
  | _ => false
  end.

Definition succeeded (W : Externals) (e : event) : bool :=
  match e with
  | GenerateContent _ _ _ _ (Ok (Some parts)) =>
      match first_inline_image (Image_open W) parts with
      | Ok (Some _) => true
      | _ => false
      end
  | RembgRemove _ (Ok out) => is_ok (Image_open W out)
  | ImgbbPost _ (Ok data) =>
      match read_upload_answer data with
      | Ok url => nonempty_url url
      | Raise _ => false
      end
  | _ => false
  end.

(** ** Sample worlds

    Concrete services, used to run the program on concrete requests. *)

Module Sample.

Definition png : bytes := [Byte.x89; Byte.x50; Byte.x4e; Byte.x47].

(** A decoder that accepts any non-empty byte string as a square picture. *)
Definition decode (b : bytes) : result image :=
  match b with
  | [] => Raise UnidentifiedImageError
  | _ :: _ => Ok {| width := 1024; height := 1024; pixels := b |}
  end.

Definition with_picture : list part :=
  [ {| text := Some "Here is your picture."; inline_data := None |};
    {| text := None; inline_data := Some png |} ].

Definition text_only : list part :=
  [ {| text := Some "I cannot draw that."; inline_data := None |} ].

Definition is_generation (e : event) : bool :=
  match e with GenerateContent _ _ _ _ _ => true | _ => false end.

Definition generations_so_far (t : trace) : nat :=
  List.length (filter is_generation t).

Definition uploads_so_far (t : trace) : nat :=
  List.length (filter is_upload t).

Definition host_accepts (form : upload_form) : json :=
  JObj [("data", JObj [("id", JStr (form_name form));
                       ("url", JStr ("https://i.ibb.co/" ++ form_name form)%string)]);
        ("success", JBool true);
        ("status", JInt 200)].

Definition host_rejects : json :=
  JObj [("status_code", JInt 400);
        ("error", JObj [("message", JStr "Invalid API v1 key."); ("code", JInt 100)]);
        ("status_txt", JStr "Bad Request")].

Definition world (gen : trace -> result (option (list part)))
    (post : trace -> upload_form -> result json) : Externals :=
  {| genai_Client := fun key => Ok {| api_key := key |};
     generate_content := fun t _ _ _ _ => gen t;
     remove := fun _ b => Ok b;
     requests_post_json := post;
     uuid4 := fun t => String (ascii_of_nat (48 + List.length t)) EmptyString;
     Image_open := decode;
     save_png := pixels;
     b64encode := fun _ => "iVBORw==";
     resample := fun im _ => pixels im |}.

(** Every service answers well. *)
Definition happy : Externals :=
  world (fun _ => Ok (Some with_picture))
        (fun _ form => Ok (host_accepts form)).

(** The [n]-th generation of the history (counted from 0) comes back
    without a picture. *)
Definition no_picture_at (n : nat) : Externals :=
  world (fun t => if Nat.eqb (generations_so_far t) n then Ok (Some text_only)
                  else Ok (Some with_picture))
        (fun _ form => Ok (host_accepts form)).

(** The host refuses the [n]-th upload of the history (counted from 0). *)
Definition host_refuses_at (n : nat) : Externals :=
  world (fun _ => Ok (Some with_picture))
        (fun t form => if Nat.eqb (uploads_so_far t) n then Ok host_rejects
                       else Ok (host_accepts form)).

Definition state : module_state :=
  {| client := {| api_key := Some "gemini-key" |};
     IMGBB_API_KEY := Some "imgbb-key" |}.

Definition photo : bytes := [Byte.xff; Byte.xd8; Byte.xff].

Definition request : http_request := POST_api_generate photo None None.

(** The uploaded photo, decoded. *)
Definition pet : image := {| width := 1024; height := 1024; pixels := photo |}.

(** The picture the sample generation service draws. *)
Definition drawing : image := {| width := 1024; height := 1024; pixels := png |}.

(** The environment of a deployment that has the generation key, a wrong
    one, and lacks the host's key. *)
Definition getenv (name : string) : option string :=
  if String.eqb name "GEMINI_KEY" then Some "not-a-valid-key" else None.

(** A picture 1200 pixels wide and one pixel high. *)
Definition strip : image := {| width := 1200; height := 1; pixels := [] |}.

(** A picture in the format of a 3:2 photograph. *)
Definition landscape : image := {| width := 1000; height := 667; pixels := [] |}.

End Sample.

(** ** Vocabulary of further properties *)

(** What the handler hands to each service, read off a call of a request:
    a generation gets the module's client, the fixed model, one of the two
    prompts and the decoded upload; a removal gets the PNG bytes of a
    picture that a generation of the same request gave; an upload carries
    the module's host key, a name made of ["generated_"] and a fresh
    identifier, and the preview or the high-resolution variant of a picture
    that a removal of the same request gave. *)
Definition call_in_order (W : Externals) (st : module_state) (file : bytes)
    (prompt1 prompt2 : string) (evs : list event) (e : event) : Prop :=
  match e with
  | GenerateContent c model prompt img _ =>
      c = client st /\
      model = "gemini-2.5-flash-image" /\
      Image_open W file = Ok img /\
      (prompt = prompt1 \/ prompt = prompt2)
  | RembgRemove png _ =>
      exists c model prompt img parts picture,
        In (GenerateContent c model prompt img (Ok (Some parts))) evs /\
        first_inline_image (Image_open W) parts = Ok (Some picture) /\
        png = save_png W picture
  | ImgbbPost form _ =>
      form_key form = IMGBB_API_KEY st /\
      (exists t, form_name form = ("generated_" ++ uuid4 W t)%string) /\
      exists png out img_no_bg,
        In (RembgRemove png (Ok out)) evs /\
        Image_open W out = Ok img_no_bg /\
        (form_image form = b64encode W (save_png W (preview_of W img_no_bg)) \/
         form_image form = b64encode W (save_png W (highres_of W img_no_bg)))
  end.

(** Further facts of every run of the request handler from history [t0]:
    what each call was given; after eight calls that all passed, the
    handler ends as the rendering of the response does; a generation without
    a picture is found out only when the turn
    of its variation comes; a file that decodes is always followed by the
    generation for the first prompt, and that one, when it passes, by the
    generation for the second. *)
Definition run_details (W : Externals) (st : module_state) (file : bytes)
    (prompt1 prompt2 : string) (t0 : trace)
    (run : result http_response * trace) : Prop :=
  exists evs,
    snd run = (t0 ++ evs)%list /\
    Forall (call_in_order W st file prompt1 prompt2 evs) evs /\
    (List.length evs = 8%nat -> Forall (passes W) evs ->
     fst run = JSONResponse (response_body (hosted_urls evs))) /\
    (forall e1 e2 rest,
       evs = e1 :: e2 :: rest ->
       (pictureless e1 -> rest = []) /\
       (~ pictureless e1 -> pictureless e2 -> Forall (passes W) evs ->
        exists r u h,
          rest = [r; u; h] /\ label_of r = LRemove /\ hosted u /\ hosted h)) /\
    (forall img,
       Image_open W file = Ok img ->
       exists answer rest,
         evs = GenerateContent (client st) "gemini-2.5-flash-image" prompt1
                 img answer :: rest) /\
    (forall e1 rest,
       evs = e1 :: rest -> passes W e1 ->
       exists e2 rest', rest = e2 :: rest' /\ label_of e2 = LGenerate prompt2).

(** The records [enumerate(..., start=i)] numbers from [i] on, one for each
    pair of URLs. *)
Fixpoint numbered (i : Z) (urls : list (json * json)) : list json :=
  match urls with
  | [] => []
  | (preview_url, highres_url) :: rest =>
      variation_record i preview_url highres_url :: numbered (i + 1) rest
  end.

(** The seven values Python takes for false among those of a JSON text. *)
Definition falsy (v : json) : Prop :=
  v = JNull \/ v = JBool false \/ v = JInt 0 \/
  (exists q, v = JFloat q /\ Qnum q = 0) \/
  v = JStr "" \/ v = JArr [] \/ v = JObj [].

(** Worlds in which a service is down or answers out of the ordinary. *)
Module Outage.

(** The generation service raises at the [n]-th generation of the history
    (counted from 0). *)
Definition generation_down_at (n : nat) : Externals :=
  Sample.world
    (fun t => if Nat.eqb (Sample.generations_so_far t) n
              then Raise (ServiceError "503 UNAVAILABLE")
              else Ok (Some Sample.with_picture))
    (fun _ form => Ok (Sample.host_accepts form)).

(** The [n]-th generation of the history (counted from 0) comes back
    without content: [response.parts] is [None]. *)
Definition no_content_at (n : nat) : Externals :=
  Sample.world
    (fun t => if Nat.eqb (Sample.generations_so_far t) n
              then Ok None
              else Ok (Some Sample.with_picture))
    (fun _ form => Ok (Sample.host_accepts form)).

(** A generation client that refuses a missing key, as the SDK's does. *)
Definition strict_client (key : option string) : result genai_client :=
  match key with
  | Some k => Ok {| api_key := Some k |}
  | None => Raise (ValueError "Missing key inputs argument!" JNull)
  end.

Definition strict_sdk : Externals :=
  {| genai_Client := strict_client;
     generate_content := generate_content Sample.happy;
     remove := remove Sample.happy;
     requests_post_json := requests_post_json Sample.happy;
     uuid4 := uuid4 Sample.happy;
     Image_open := Image_open Sample.happy;
     save_png := save_png Sample.happy;
     b64encode := b64encode Sample.happy;
     resample := resample Sample.happy |}.

(** An environment without any key. *)
Definition no_keys (name : string) : option string := None.

(** No file decodes. *)
Definition no_decoder : Externals :=
  {| genai_Client := genai_Client Sample.happy;
     generate_content := generate_content Sample.happy;
     remove := remove Sample.happy;
     requests_post_json := requests_post_json Sample.happy;
     uuid4 := uuid4 Sample.happy;
     Image_open := fun _ => Raise UnidentifiedImageError;
     save_png := save_png Sample.happy;
     b64encode := b64encode Sample.happy;
     resample := resample Sample.happy |}.

(** The host answers with a value of its own choice. *)
Definition host_says (answer : json) : Externals :=
  Sample.world (fun _ => Ok (Some Sample.with_picture))
    (fun _ _ => Ok answer).

(** An answer that reports success and whose URL is the number [1e999],
    which Python reads as infinity. *)
Definition url_out_of_range : json :=
  JObj [("success", JBool true);
        ("data", JObj [("url", JNonFinite PosInf)])].

End Outage.

(** * Properties *)

Local Open Scope list_scope.

(** ** The resizer *)

Section ResizingFacts.

Variable W : Externals.

Lemma floor_scaled (y w h : Z) :
  0 < h -> Qfloor (inject_Z y * (inject_Z w / inject_Z h)) = (y * w) / h.
Proof.
  intros Hh. destruct h as [|p|p]; try lia.
  unfold Qdiv, Qinv, Qmult, inject_Z, Qfloor. simpl.
  f_equal. lia.
Qed.

Lemma ceiling_scaled (y w h : Z) :
  0 < h ->
  Qceiling (inject_Z y * (inject_Z w / inject_Z h)) = - ((- (y * w)) / h).
Proof.
  intros Hh. destruct h as [|p|p]; try lia.
  unfold Qceiling, Qopp, Qdiv, Qinv, Qmult, inject_Z, Qfloor. simpl.
  f_equal. f_equal. lia.
Qed.

Lemma floor_unscaled (x w h : Z) :
  0 < w -> 0 < h ->
  Qfloor (inject_Z x / (inject_Z w / inject_Z h)) = (x * h) / w.
Proof.
  intros Hw Hh. destruct h as [|p|p]; try lia. destruct w as [|q|q]; try lia.
  unfold Qdiv, Qinv, Qmult, inject_Z, Qfloor. simpl.
  f_equal. lia.
Qed.

Lemma ceiling_unscaled (x w h : Z) :
  0 < w -> 0 < h ->
  Qceiling (inject_Z x / (inject_Z w / inject_Z h)) = - ((- (x * h)) / w).
Proof.
  intros Hw Hh. destruct h as [|p|p]; try lia. destruct w as [|q|q]; try lia.
  unfold Qceiling, Qopp, Qdiv, Qinv, Qmult, inject_Z, Qfloor. simpl.
  f_equal. f_equal. lia.
Qed.

Lemma aspect_le (x y w h : Z) :
  0 < y -> 0 < h ->
  Qle_bool (inject_Z w / inject_Z h) (inject_Z x / inject_Z y) = true
  <-> w * y <= x * h.
Proof.
  intros Hy Hh. rewrite Qle_bool_iff.
  destruct h as [|p|p]; try lia. destruct y as [|q|q]; try lia.
  unfold Qle, Qdiv, Qinv, Qmult, inject_Z. simpl. lia.
Qed.

(** Whatever the key, [round_aspect] of the positive fraction [a / d] is a
    positive integer less than one away from it. *)
Lemma round_aspect_near (number : Q) (key : Z -> Q) (a d : Z) :
  0 < d -> 0 < a ->
  Qfloor number = a / d ->
  Qceiling number = - ((- a) / d) ->
  1 <= round_aspect number key /\
  a - d < round_aspect number key * d < a + d.
Proof.
  intros Hd Ha Hf Hc. unfold round_aspect, py_min_by. rewrite Hf, Hc.
  pose proof (Z.mul_div_le a d Hd) as F1.
  pose proof (Z.mul_succ_div_gt a d Hd) as F2.
  pose proof (Z.mul_div_le (- a) d Hd) as C1.
  pose proof (Z.mul_succ_div_gt (- a) d Hd) as C2.
  set (f := a / d) in *. set (g := (- a) / d) in *.
  assert (0 <= f) by (subst f; apply Z.div_pos; lia).
  destruct (Qle_bool (key f) (key (- g))); split; lia.
Qed.

(** What [Image.thumbnail] decides for a box and a picture, both of positive
    lengths. *)
Lemma preserve_aspect_ratio_spec (x y : Z) (im : image) :
  0 < x -> 0 < y -> 0 < width im -> 0 < height im ->
  match preserve_aspect_ratio (x, y) im with
  | None => width im <= x /\ height im <= y
  | Some (x', y') =>
      ~ (width im <= x /\ height im <= y) /\
      1 <= x' <= x /\ 1 <= y' <= y /\
      x' <= width im /\ y' <= height im /\
      ((y' = y /\ Z.abs (x' * height im - y * width im) < height im) \/
       (x' = x /\ Z.abs (y' * width im - x * height im) < width im))
  end.
Proof.
  intros Hx Hy Hw Hh. unfold preserve_aspect_ratio.
  destruct ((width im <=? x) && (height im <=? y)) eqn:Hfit.
  - apply andb_true_iff in Hfit. lia.
  - assert (Hnot : ~ (width im <= x /\ height im <= y)).
    { intros [A B]. apply andb_false_iff in Hfit. lia. }
    destruct (Qle_bool _ _) eqn:Hbranch.
    + apply aspect_le in Hbranch; try lia.
      destruct (round_aspect_near
                  (inject_Z y * (inject_Z (width im) / inject_Z (height im)))
                  (fun n => Qabs (inject_Z (width im) / inject_Z (height im)
                                  - inject_Z n / inject_Z y))
                  (y * width im) (height im)) as [R1 R2];
        try lia; [apply floor_scaled; lia | apply ceiling_scaled; lia |].
      set (r := round_aspect _ _) in *.
      split; [exact Hnot|]. repeat split; lia || nia.
    + assert (Hlt : x * height im < width im * y).
      { destruct (Z.le_gt_cases (width im * y) (x * height im)) as [Hle|Hgt];
          [| lia].
        apply aspect_le in Hle; try lia. congruence. }
      destruct (round_aspect_near
                  (inject_Z x / (inject_Z (width im) / inject_Z (height im)))
                  (fun n => if n =? 0 then 0%Q
                            else Qabs (inject_Z (width im) / inject_Z (height im)
                                       - inject_Z x / inject_Z n))
                  (x * height im) (width im)) as [R1 R2];
        try lia; [apply floor_unscaled; lia | apply ceiling_unscaled; lia |].
      set (r := round_aspect _ _) in *.
      split; [exact Hnot|]. repeat split; lia || nia.
Qed.

End ResizingFacts.

(** No picture of whole, positive lengths inside the 400 by 400 box has the
    aspect ratio of a 1200 by 1 strip, whatever the resizing method. *)
Lemma no_preview_has_the_ratio_of_a_strip (p : image) :
  1 <= width p <= 400 -> 1 <= height p ->
  ~ same_aspect_ratio p Sample.strip.
Proof.
  unfold same_aspect_ratio, Sample.strip. cbn [width height]. lia.
Qed.

(** C4, as stated, fails: the preview of a 1200 by 1 strip is 400 by 1, three
    times less elongated than its source. *)
Lemma preview_of_strip_is_distorted :
  size (preview_of Sample.happy Sample.strip) = (400, 1) /\
  ~ preview_as_claimed Sample.happy Sample.strip.
Proof.
  split; [reflexivity|].
  unfold preview_as_claimed.
  change (preview_of Sample.happy Sample.strip)
    with {| width := 400; height := 1; pixels := [] |}.
  unfold same_aspect_ratio, Sample.strip. cbn [width height]. lia.
Qed.

(** C4, amended.  The preview of a picture of positive lengths has both
    lengths between 1 and 400, is on neither axis longer than its source,
    and is the source itself when that fits the 400 by 400 box.  Otherwise
    one axis is exactly 400 and the other is less than one pixel away from
    the length exact proportional scaling would give: the aspect ratio is
    kept up to rounding to whole pixels, not exactly. *)
Theorem preview_fits_and_is_proportional (W : Externals) (im : image) :
  0 < width im -> 0 < height im ->
  let p := preview_of W im in
  (1 <= width p <= 400 /\ 1 <= height p <= 400) /\
  (width p <= width im /\ height p <= height im) /\
  (width im <= 400 -> height im <= 400 -> p = im) /\
  (p = im \/
   (height p = 400 /\
    Z.abs (width p * height im - 400 * width im) < height im) \/
   (width p = 400 /\
    Z.abs (height p * width im - 400 * height im) < width im)).
Proof.
  intros Hw Hh p.
  pose proof (preserve_aspect_ratio_spec 400 400 im) as S.
  unfold p, preview_of, thumbnail, copy.
  destruct (preserve_aspect_ratio (400, 400) im) as [[x' y']|].
  - destruct S as (Hnot & Bx & By & Sx & Sy & Near); try lia.
    destruct (size_eqb (size im) (x', y')) eqn:Esz.
    + unfold size_eqb in Esz. cbn [size fst snd] in Esz.
      apply andb_true_iff in Esz. destruct Esz as [E1 E2].
      apply Z.eqb_eq in E1. apply Z.eqb_eq in E2.
      split; [lia|]. split; [lia|]. split; [reflexivity|].
      left. reflexivity.
    + cbn [resize width height fst snd].
      split; [lia|]. split; [lia|]. split; [lia|].
      right. exact Near.
  - destruct S as [Fx Fy]; try lia.
    split; [lia|]. split; [lia|]. split; [reflexivity|].
    left. reflexivity.
Qed.

Lemma preview_fits_and_is_proportional_witness :
  0 < width Sample.landscape /\ 0 < height Sample.landscape /\
  size (preview_of Sample.happy Sample.landscape) = (400, 267) /\
  let p := preview_of Sample.happy Sample.landscape in
  (1 <= width p <= 400 /\ 1 <= height p <= 400) /\
  (width p <= width Sample.landscape /\ height p <= height Sample.landscape) /\
  (width Sample.landscape <= 400 -> height Sample.landscape <= 400 ->
   p = Sample.landscape) /\
  (p = Sample.landscape \/
   (height p = 400 /\
    Z.abs (width p * height Sample.landscape - 400 * width Sample.landscape)
    < height Sample.landscape) \/
   (width p = 400 /\
    Z.abs (height p * width Sample.landscape - 400 * height Sample.landscape)
    < width Sample.landscape)).
Proof.
  split; [reflexivity|]. split; [reflexivity|]. split; [reflexivity|].
  apply (preview_fits_and_is_proportional Sample.happy Sample.landscape);
    reflexivity.
Defined.

(** C5.  The high-resolution variant of any picture, whatever its size, is
    exactly 3000 wide and 3600 high. *)
Theorem highres_is_3000_by_3600 (W : Externals) (img_no_bg : image) :
  size (highres_of W img_no_bg) = (3000, 3600) /\
  width (highres_of W img_no_bg) = 3000 /\
  height (highres_of W img_no_bg) = 3600.
Proof.
  repeat split.
Qed.

(** ** The three helpers *)

Section HelperFacts.

Variable W : Externals.
Variable st : module_state.

(** Each helper makes exactly one call and ends as the [verdict] of that
    call says. *)
Lemma upload_to_imgbb_run (pil_image : image) (t : trace) :
  let form := imgbb_form W st (b64encode W (save_png W pil_image)) t in
  let answer := requests_post_json W t form in
  upload_to_imgbb W st pil_image t =
  (match answer with
   | Ok data => read_upload_answer data
   | Raise e => Raise e
   end, (t ++ [ImgbbPost form answer])%list).
Proof.
  unfold upload_to_imgbb, bind, call_requests_post, lift. cbn zeta.
  destruct (requests_post_json W t _); reflexivity.
Qed.

Lemma remove_background_run (im : image) (t : trace) :
  let answer := remove W t (save_png W im) in
  remove_background W (Some im) t =
  (match answer with
   | Ok output_bytes => Image_open W output_bytes
   | Raise e => Raise e
   end, (t ++ [RembgRemove (save_png W im) answer])%list).
Proof.
  unfold remove_background, bind, call_remove, lift. cbn zeta.
  destruct (remove W t _); reflexivity.
Qed.

Lemma generate_image_run (prompt : string) (input_image : image) (t : trace) :
  let answer := generate_content W t (client st) "gemini-2.5-flash-image"
                  prompt input_image in
  generate_image W st prompt input_image t =
  (match answer with
   | Ok response_parts => scan_parts (Image_open W) response_parts
   | Raise e => Raise e
   end,
   (t ++ [GenerateContent (client st) "gemini-2.5-flash-image" prompt
            input_image answer])%list).
Proof.
  unfold generate_image, bind, call_generate_content, lift. cbn zeta.
  destruct (generate_content W t _ _ _ _); reflexivity.
Qed.

(** The loop over the parts stops at the first part with inline data. *)
Lemma first_inline_image_skips (before : list part) (p : part)
    (after : list part) (img_bytes : bytes) :
  Forall (fun q => inline_data q = None) before ->
  inline_data p = Some img_bytes ->
  first_inline_image (Image_open W) (before ++ p :: after) =
  match Image_open W img_bytes with
  | Ok img => Ok (Some img)
  | Raise e => Raise e
  end.
Proof.
  intros Hbefore Hp. induction Hbefore as [|q before Hq _ IH]; simpl.
  - rewrite Hp. reflexivity.
  - rewrite Hq. exact IH.
Qed.

Lemma first_inline_image_none (parts : list part) :
  Forall (fun q => inline_data q = None) parts ->
  first_inline_image (Image_open W) parts = Ok None.
Proof.
  induction 1 as [|q parts Hq _ IH]; simpl.
  - reflexivity.
  - rewrite Hq. exact IH.
Qed.

(** Conversely, an absence comes only from a response without inline
    data. *)
Lemma first_inline_image_none_inv (parts : list part) :
  first_inline_image (Image_open W) parts = Ok None ->
  Forall (fun q => inline_data q = None) parts.
Proof.
  induction parts as [|q parts IH]; simpl; intros H.
  - constructor.
  - destruct (inline_data q) eqn:Hq.
    + destruct (Image_open W b); discriminate.
    + constructor; [exact Hq | exact (IH H)].
Qed.

(** Outside the field-by-field reading of the answer: an answer that is
    not an object has no [get], and a ["data"] that is not an object cannot
    be indexed by a string. *)
Lemma read_upload_answer_not_a_dict (data : json) :
  (forall fields, data <> JObj fields) ->
  read_upload_answer data = Raise (AttributeError (type_name data) "get").
Proof.
  intros H. destruct data; try reflexivity. exfalso. apply (H fields). reflexivity.
Qed.

Lemma read_upload_answer_data_not_a_dict (fields : list (string * json))
    (d : json) :
  truthy_opt (dict_get "success" fields) = true ->
  dict_get "data" fields = Some d ->
  (forall inner, d <> JObj inner) ->
  read_upload_answer (JObj fields) = Raise (TypeError (type_name d)).
Proof.
  intros Hs Hd H. unfold read_upload_answer, py_get, py_getitem.
  rewrite Hs, Hd.
  destruct d; try reflexivity. exfalso. apply (H fields0). reflexivity.
Qed.

End HelperFacts.

(** ** The request handler

    The handler is run symbolically: each helper is replaced by the one call
    it makes and the cases of its answer, which leaves one goal for every
    way a request can end. *)

Section HandlerFacts.

Variable W : Externals.
Variable st : module_state.

Ltac see_generation :=
  match goal with
  | |- context [generate_image W st ?p ?i ?t] =>
      rewrite (generate_image_run W st p i t); cbv zeta;
      let parts := fresh "parts" in
      destruct (generate_content W t (client st) "gemini-2.5-flash-image" p i)
        as [[parts|]|?x] eqn:?Hanswer;
      [ cbn [scan_parts];
        destruct (first_inline_image (Image_open W) parts)
          as [[?g|]|?x] eqn:?Hfirst
      | cbn [scan_parts]
      | ]
  end.

Ltac see_removal :=
  match goal with
  | |- context [remove_background W (Some ?im) ?t] =>
      rewrite (remove_background_run W im t); cbv zeta;
      let out := fresh "out" in
      destruct (remove W t (save_png W im)) as [out|?x] eqn:?Hanswer;
      [ destruct (Image_open W out) as [?b|?x] eqn:?Hopen | ]
  | |- context [remove_background W None ?t] =>
      change (remove_background W None t)
        with (@Raise image (AttributeError "NoneType" "save"), t)
  end.

Ltac see_upload :=
  match goal with
  | |- context [upload_to_imgbb W st ?im ?t] =>
      rewrite (upload_to_imgbb_run W st im t); cbv zeta;
      let f := fresh "form" in
      let data := fresh "data" in
      remember (imgbb_form W st (b64encode W (save_png W im)) t) as f eqn:?Hform;
      destruct (requests_post_json W t f) as [data|?x] eqn:?Hanswer;
      [ destruct (read_upload_answer data) as [?url|?x] eqn:?Hread | ]
  end.

Ltac step :=
  first [ see_generation | see_removal | see_upload
        | progress (unfold bind at 1)
        | progress (cbn [variations_loop])
        | progress (cbv beta iota) ].

(** Rewriting with what is known of the answers. *)
Ltac known :=
  repeat match goal with
  | H : first_inline_image _ ?p = _ |- context [first_inline_image _ ?p] => rewrite H
  | H : Image_open W ?o = _ |- context [Image_open W ?o] => rewrite H
  | H : read_upload_answer ?d = _ |- context [read_upload_answer ?d] => rewrite H
  end.

Ltac known_in Hv :=
  repeat match goal with
  | H : first_inline_image _ ?p = _ |- _ =>
      match type of Hv with context [first_inline_image _ p] => rewrite H in Hv end
  | H : Image_open W ?o = _ |- _ =>
      match type of Hv with context [Image_open W o] => rewrite H in Hv end
  | H : read_upload_answer ?d = _ |- _ =>
      match type of Hv with context [read_upload_answer d] => rewrite H in Hv end
  end.

Ltac all_pass :=
  repeat constructor; unfold passes; cbn [verdict scan_parts]; known;
  reflexivity.

(** The last step: the rendering of the response. *)
Ltac see_render :=
  cbv beta iota delta [ret lift];
  try match goal with
      | |- context [JSONResponse ?c] =>
          destruct (JSONResponse c) as [?resp|?x] eqn:?Hrender
      end.

Lemma generate_image_api_run_facts (file : bytes) (p1 p2 : string) (t0 : trace) :
  run_facts W st file p1 p2 t0 (generate_image_api W st file p1 p2 t0).
Proof.
  unfold generate_image_api. unfold bind at 1. unfold lift at 1.
  destruct (Image_open W file) as [input|x] eqn:Hinput.
  2:{ exists []. cbn [fst snd]. rewrite app_nil_r.
      split; [reflexivity|]. split; [exact I|].
      split; [exists (schedule p1 p2); reflexivity|].
      split; [intros ? ? []|]. split; [intros ? []|].
      split; [discriminate|].
      intros x' Hx. injection Hx as <-. left. split; [reflexivity | exact Hinput]. }
  repeat step.
  all: see_render.
  all: unfold run_facts; cbn [fst snd].
  all: eexists; split;
    [ repeat rewrite <- app_assoc; cbn [app]; reflexivity | ].
  all: cbn [app].
  all: split; [ cbn [sequential answered]; repeat split; symmetry; assumption | ].
  all: split; [ cbn [map label_of]; unfold schedule; eexists; cbn [app]; reflexivity | ].
  all: refine (conj _ (conj _ (conj _ _))).
  (* a failed call is the last one *)
  all: try solve [ intros e x' HIn Hv; cbn [In] in HIn;
    repeat (destruct HIn as [<-|HIn]; [cbn [verdict scan_parts] in Hv; known_in Hv; try discriminate Hv|]);
    first [ contradiction
          | injection Hv as <-; split; [reflexivity|];
            match goal with |- exists pre, ?l = _ /\ _ => exists (removelast l) end;
            split; [reflexivity | cbn [removelast]; all_pass] ] ].
  (* a generation without a picture *)
  all: try solve [ intros e HIn (c & model & prompt & img & parts' & -> & Hnone);
    apply first_inline_image_none with (W := W) in Hnone;
    cbn [In] in HIn;
    repeat (destruct HIn as [HIn|HIn]; [ try congruence |]);
    first [ contradiction
          | eexists; split; [reflexivity|];
            intros HF;
            first [ reflexivity
                  | repeat rewrite Forall_cons_iff in HF; unfold passes in HF;
                    cbn [verdict scan_parts] in HF;
                    known_in HF; exfalso; intuition discriminate ] ] ].
  (* a run that fails *)
  all: try solve [ intros x' Hx; first [ discriminate Hx | injection Hx as <- ];
    right;
    first [ left;
            match goal with
            | |- exists e, In e ?l /\ _ =>
                exists (last l (RembgRemove [] (Raise UnidentifiedImageError)))
            end;
            cbn [last]; split;
            [ cbn [In]; repeat (first [ left; reflexivity | right ])
            | cbn [verdict scan_parts]; known; reflexivity ]
          | solve [ right; left; apply Exists_exists;
                    repeat first
                      [ apply Exists_cons_hd;
                        solve [ do 5 eexists; split;
                                [ reflexivity
                                | apply first_inline_image_none_inv
                                    with (W := W);
                                  assumption ] ]
                      | apply Exists_cons_tl ] ]
          | right; right; split; [reflexivity|]; split; [all_pass|];
            cbn [hosted_urls flat_map]; known; cbn [app response_body];
            match goal with H : JSONResponse _ = Raise _ |- _ => exact H end ] ].
  (* a run that returns *)
  all: try solve [ intros resp' Hresp; discriminate Hresp ].
  intros resp' Hresp. injection Hresp as <-.
  unfold complete_run, generation_of, removal_of, upload_of.
  do 17 eexists.
  repeat apply conj.
  - exact Hinput.
  - reflexivity.
  - eexists; split; [reflexivity | eassumption].
  - eexists; split; [reflexivity | eassumption].
  - eexists; split; [reflexivity | eassumption].
  - do 2 eexists; split; [reflexivity | split; [subst; reflexivity | eassumption]].
  - do 2 eexists; split; [reflexivity | split; [subst; reflexivity | eassumption]].
  - eexists; split; [reflexivity | eassumption].
  - do 2 eexists; split; [reflexivity | split; [subst; reflexivity | eassumption]].
  - do 2 eexists; split; [reflexivity | split; [subst; reflexivity | eassumption]].
  - exact Hrender.
Qed.

Lemma generate_image_api_run_details (file : bytes) (p1 p2 : string)
    (t0 : trace) :
  run_details W st file p1 p2 t0 (generate_image_api W st file p1 p2 t0).
Proof.
  unfold generate_image_api. unfold bind at 1. unfold lift at 1.
  destruct (Image_open W file) as [input|x] eqn:Hinput.
  2:{ exists []. cbn [fst snd]. rewrite app_nil_r.
      split; [reflexivity|]. split; [constructor|].
      split; [intros Hlen; simpl in Hlen; discriminate Hlen|].
      split; [intros ? ? ? Heq; discriminate Heq|].
      split; [intros img Himg; rewrite Hinput in Himg; discriminate Himg|].
      intros ? ? Heq. discriminate Heq. }
  repeat step.
  all: see_render.
  all: unfold run_details; cbn [fst snd].
  all: eexists; split;
    [ repeat rewrite <- app_assoc; cbn [app]; reflexivity | ].
  all: cbn [app].
  all: refine (conj _ (conj _ (conj _ (conj _ _)))).
  (* what each call was given *)
  all: try solve [ subst; repeat first [apply Forall_nil | apply Forall_cons];
    match goal with
    | |- call_in_order _ _ _ _ _ _ (GenerateContent _ _ _ _ _) =>
        cbn [call_in_order]; repeat split; auto
    | |- call_in_order _ _ _ _ _ _ (RembgRemove _ _) =>
        cbn [call_in_order];
        do 6 eexists; split; [|split; [|reflexivity]]; [|eassumption];
        cbn [In]; repeat (first [left; reflexivity | right])
    | |- call_in_order _ _ _ _ _ _ (ImgbbPost _ _) =>
        cbn [call_in_order form_key form_name form_image imgbb_form];
        split; [reflexivity|]; split; [eexists; reflexivity|];
        do 3 eexists; split;
          [|split; [|first [left; reflexivity | right; reflexivity]]];
          [|eassumption];
        cbn [In]; repeat (first [left; reflexivity | right])
    end ].
  (* eight calls that passed *)
  all: try solve [ intros Hlen HF; cbn [List.length] in Hlen;
    first [ discriminate Hlen
          | cbn [hosted_urls flat_map]; known; cbn [app response_body];
            symmetry;
            match goal with H : JSONResponse _ = _ |- _ => exact H end
          | repeat rewrite Forall_cons_iff in HF; unfold passes in HF;
            cbn [verdict scan_parts] in HF; known_in HF; exfalso; intuition discriminate ] ].
  (* the turn of a variation *)
  all: try solve [ intros e1 e2 rest Heq;
    first
      [ discriminate Heq
      | injection Heq as _ Hrest; discriminate Hrest
      | injection Heq as <- <- <-;
        split;
        [ intros (c & model & prompt & img & parts' & Heq & Hnone);
          apply first_inline_image_none with (W := W) in Hnone;
          first [ reflexivity | congruence ]
        | intros Hnot (c & model & prompt & img & parts' & Heq & Hnone) HF;
          apply first_inline_image_none with (W := W) in Hnone;
          first
            [ congruence
            | exfalso; apply Hnot; do 5 eexists; split;
              [ reflexivity
              | apply first_inline_image_none_inv with (W := W); assumption ]
            | repeat rewrite Forall_cons_iff in HF; unfold passes in HF;
              cbn [verdict scan_parts] in HF; known_in HF; exfalso;
              intuition discriminate
            | do 3 eexists; split; [reflexivity|]; split; [reflexivity|];
              split; do 3 eexists; (split; [reflexivity | eassumption]) ] ] ] ].
  (* the first call *)
  all: try solve [ intros img Himg; rewrite Hinput in Himg;
    injection Himg as <-; do 2 eexists; reflexivity ].
  (* the second generation *)
  all: try solve [ intros e1 rest Heq Hp; injection Heq as <- <-;
    first [ do 2 eexists; split; reflexivity
          | unfold passes in Hp; cbn [verdict scan_parts] in Hp; known_in Hp;
            discriminate Hp ] ].
Qed.

(** The loop over the variations, for any number of them. *)
Lemma variations_loop_run (imgs : list (option image)) :
  forall (i : Z) (acc : list json) (t : trace),
  match variations_loop W st i imgs acc t with
  | (Ok out, t') =>
      exists urls evs,
        out = acc ++ numbered i urls /\
        List.length urls = List.length imgs /\
        t' = t ++ evs /\
        map label_of evs
        = flat_map (fun _ => [LRemove; LUpload; LUpload]) imgs /\
        Forall (passes W) evs /\
        Forall (fun img => img <> None) imgs
  | (Raise _, t') =>
      exists evs rest,
        t' = t ++ evs /\
        flat_map (fun _ => [LRemove; LUpload; LUpload]) imgs
        = map label_of evs ++ rest
  end.
Proof.
  induction imgs as [|img imgs IH]; intros i acc t.
  - cbn. exists [], []. rewrite !app_nil_r. repeat split; constructor.
  - destruct img as [im|]; cbn [variations_loop flat_map].
    2:{ unfold bind at 1. see_removal. cbv beta iota.
        exists [], ([LRemove; LUpload; LUpload]
                    ++ flat_map (fun _ => [LRemove; LUpload; LUpload]) imgs).
        rewrite app_nil_r. split; reflexivity. }
    repeat step.
    all: try solve [ eexists; eexists; split;
      [ repeat rewrite <- app_assoc; cbn [app]; reflexivity
      | cbn [map label_of app]; reflexivity ] ].
    match goal with
    | |- context [variations_loop W st ?j imgs ?a ?u] =>
        specialize (IH j a u);
        destruct (variations_loop W st j imgs a u) as [[records|?x] ?t']
    end.
    + destruct IH as (urls & evs & -> & Hlen & -> & Hlab & Hpass & Hsome).
      exists ((url, url0) :: urls).
      eexists. split; [|split; [|split; [|split; [|split]]]].
      * cbn [numbered]. rewrite <- app_assoc. reflexivity.
      * cbn [List.length]. rewrite Hlen. reflexivity.
      * repeat rewrite <- app_assoc. cbn [app]. reflexivity.
      * cbn [map label_of]. rewrite Hlab. reflexivity.
      * repeat (apply Forall_cons;
                [unfold passes; cbn [verdict scan_parts]; known; reflexivity|]).
        exact Hpass.
      * apply Forall_cons; [discriminate | exact Hsome].
    + destruct IH as (evs & rest & -> & Hlab).
      eexists. exists rest. split.
      * repeat rewrite <- app_assoc. cbn [app]. reflexivity.
      * cbn [map label_of app]. rewrite Hlab. reflexivity.
Qed.

End HandlerFacts.

(** ** Reading a run *)

Lemma issued_app (t0 evs : trace) : issued t0 (t0 ++ evs) = evs.
Proof.
  unfold issued. induction t0 as [|e t0 IH]; [reflexivity | exact IH].
Qed.

(** In a list whose elements all satisfy [P] except the last one, an element
    that does not satisfy [P] is the last one. *)
Lemma failure_is_last {A : Type} (P : A -> Prop) (pre post pre' : list A)
    (e e' : A) :
  (pre ++ e :: post)%list = (pre' ++ [e'])%list ->
  Forall P pre' -> ~ P e ->
  pre = pre' /\ post = [] /\ e = e'.
Proof.
  revert pre'. induction pre as [|a pre IH]; intros pre' Heq Hall Hne.
  - destruct pre' as [|a' pre']; simpl in Heq.
    + injection Heq as -> ->. repeat split.
    + injection Heq as -> _. inversion Hall; subst. contradiction.
  - destruct pre' as [|a' pre']; simpl in Heq.
    + injection Heq as _ Heq. destruct pre; discriminate Heq.
    + injection Heq as -> Heq. inversion Hall; subst.
      destruct (IH pre' Heq) as (-> & -> & ->); auto.
Qed.

Lemma refused_verdict (W : Externals) (e : event) (payload : json) :
  refused e payload ->
  verdict W e = Some (ValueError "imgBB upload failed: " payload).
Proof.
  intros (form & fields & -> & -> & Hfalse).
  cbn [verdict]. unfold read_upload_answer, py_get. rewrite Hfalse. reflexivity.
Qed.

Lemma passed_upload_is_hosted (W : Externals) (e : event) :
  passes W e -> is_upload e = true -> hosted e.
Proof.
  unfold passes. intros Hpass Hup.
  destruct e as [c m p i a|png a|form a]; try discriminate Hup.
  destruct a as [data|x]; [|discriminate Hpass].
  cbn [verdict] in Hpass.
  destruct (read_upload_answer data) as [url|x] eqn:Hread; [|discriminate Hpass].
  exists form, data, url. split; [reflexivity | exact Hread].
Qed.

(** The answer of a host that reports success and gives the nested URL. *)
Lemma read_upload_answer_url (fields d : list (string * json)) (url : json) :
  truthy_opt (dict_get "success" fields) = true ->
  dict_get "data" fields = Some (JObj d) ->
  dict_get "url" d = Some url ->
  read_upload_answer (JObj fields) = Ok url.
Proof.
  intros Hs Hd Hu. unfold read_upload_answer, py_get, py_getitem.
  rewrite Hs, Hd, Hu. reflexivity.
Qed.

(** A call that succeeded passed, was not a generation without a picture,
    and, if an upload, gave a non-empty string. *)
Lemma succeeded_spec (W : Externals) (e : event) :
  succeeded W e = true ->
  passes W e /\ ~ pictureless e /\
  (forall form data url,
     e = ImgbbPost form (Ok data) -> read_upload_answer data = Ok url ->
     exists s, url = JStr s /\ s <> "").
Proof.
  unfold passes. intros Hs.
  destruct e as [c m p i [[parts|]|x]|png [out|x]|form [data|x]];
    cbn [succeeded verdict scan_parts] in *; try discriminate Hs.
  - destruct (first_inline_image (Image_open W) parts) as [[g|]|x] eqn:Hfirst;
      try discriminate Hs.
    split; [reflexivity|]. split; [|intros ? ? ? Heq; discriminate Heq].
    intros (c' & m' & p' & i' & parts' & Heq & Hnone).
    injection Heq as _ _ _ _ <-.
    apply first_inline_image_none with (W := W) in Hnone. congruence.
  - destruct (Image_open W out) as [b|x]; try discriminate Hs.
    split; [reflexivity|]. split; [|intros ? ? ? Heq; discriminate Heq].
    intros (c' & m' & p' & i' & parts' & Heq & _). discriminate Heq.
  - destruct (read_upload_answer data) as [url|x] eqn:Hread;
      try discriminate Hs.
    split; [reflexivity|]. split.
    + intros (c' & m' & p' & i' & parts' & Heq & _). discriminate Heq.
    + intros form' data' url' Heq Hread'. injection Heq as _ <-.
      rewrite Hread in Hread'. injection Hread' as <-.
      destruct url as [| | | | |s| | |]; try discriminate Hs.
      destruct s as [|a s]; [discriminate Hs|].
      exists (String a s). split; [reflexivity | discriminate].
Qed.

(** The URLs of calls that succeeded are strings, and a body made of
    strings renders. *)
Lemma succeeded_urls_are_strings (W : Externals) (evs : list event) :
  forallb (succeeded W) evs = true ->
  Forall (fun url => exists s, url = JStr s) (hosted_urls evs).
Proof.
  induction evs as [|e evs IH]; cbn [forallb hosted_urls flat_map]; intros H.
  - constructor.
  - apply andb_true_iff in H. destruct H as [He Hevs].
    apply Forall_app. split; [|exact (IH Hevs)].
    destruct e as [c m p i a|png a|form [data|x]]; try constructor.
    cbn [succeeded] in He.
    destruct (read_upload_answer data) as [url|x]; [|constructor].
    destruct url; try discriminate He.
    constructor; [eexists; reflexivity | constructor].
Qed.

Lemma body_of_strings_renders (urls : list json) :
  Forall (fun url => exists s, url = JStr s) urls ->
  JSONResponse (response_body urls)
  = Ok {| status_code := 200; content := response_body urls |}.
Proof.
  intros H.
  destruct urls as [|u1 [|u2 [|u3 [|u4 [|u5 rest]]]]]; try reflexivity.
  inversion H as [|? ? (s1 & ->) H1]; subst.
  inversion H1 as [|? ? (s2 & ->) H2]; subst.
  inversion H2 as [|? ? (s3 & ->) H3]; subst.
  inversion H3 as [|? ? (s4 & ->) _]; subst.
  reflexivity.
Qed.

(** ** The generation caller *)

(** C6, as stated, fails: a response of the service without content has no
    list of parts ([response.parts] is [None]); the loop of the generation
    caller raises a type error on it instead of returning the absence
    value. *)
Lemma response_without_parts_raises_type_error :
  generate_content (Outage.no_content_at 0) [] (client Sample.state)
    "gemini-2.5-flash-image" default_prompt1 Sample.pet = Ok None /\
  fst (generate_image (Outage.no_content_at 0) Sample.state default_prompt1
         Sample.pet [])
  = Raise (TypeError "NoneType") /\
  fst (generate_image (Outage.no_content_at 0) Sample.state default_prompt1
         Sample.pet [])
  <> Ok None.
Proof.
  split; [reflexivity|]. split; [reflexivity | discriminate].
Qed.

(** C6, amended.  For every prompt and source picture, the generation
    caller calls the generation service exactly once (one call is added to
    the history, whatever the answer: there is no second attempt).  When
    the service raises, so does the caller.  When the response has a list
    of parts, the caller returns the first part that carries inline data,
    decoded as a picture (the decoder's exception if Pillow cannot read
    it), and the absence value when no part carries inline data.  When the
    response has no list of parts, the caller raises a type error. *)
Theorem generate_image_calls_once_and_takes_first_inline
    (W : Externals) (st : module_state) (prompt : string)
    (input_image : image) (t : trace) :
  let answer := generate_content W t (client st) "gemini-2.5-flash-image"
                  prompt input_image in
  let run := generate_image W st prompt input_image t in
  snd run = t ++ [GenerateContent (client st) "gemini-2.5-flash-image" prompt
                    input_image answer] /\
  (forall x, answer = Raise x -> fst run = Raise x) /\
  (answer = Ok None -> fst run = Raise (TypeError "NoneType")) /\
  (forall parts, answer = Ok (Some parts) ->
     (forall before p after img_bytes,
        parts = before ++ p :: after ->
        Forall (fun q => inline_data q = None) before ->
        inline_data p = Some img_bytes ->
        fst run = match Image_open W img_bytes with
                  | Ok img => Ok (Some img)
                  | Raise x => Raise x
                  end) /\
     (Forall (fun q => inline_data q = None) parts -> fst run = Ok None)).
Proof.
  intros answer run. subst run. rewrite generate_image_run. cbv zeta.
  fold answer. cbn [fst snd].
  split; [reflexivity|]. split; [|split].
  - intros x ->. reflexivity.
  - intros ->. reflexivity.
  - intros parts ->. cbn [scan_parts]. split.
    + intros before p after img_bytes -> Hbefore Hp.
      apply first_inline_image_skips; assumption.
    + apply first_inline_image_none.
Qed.

Lemma generate_image_calls_once_and_takes_first_inline_witness :
  fst (generate_image Sample.happy Sample.state default_prompt1 Sample.pet [])
  = Ok (Some Sample.drawing) /\
  fst (generate_image (Sample.no_picture_at 0) Sample.state default_prompt1
         Sample.pet [])
  = Ok None /\
  fst (generate_image (Outage.no_content_at 0) Sample.state default_prompt1
         Sample.pet [])
  = Raise (TypeError "NoneType").
Proof.
  split; [|split].
  - destruct (generate_image_calls_once_and_takes_first_inline
                Sample.happy Sample.state default_prompt1 Sample.pet [])
      as (_ & _ & _ & H).
    destruct (H Sample.with_picture eq_refl) as [Hfirst _].
    exact (Hfirst [ {| text := Some "Here is your picture.";
                       inline_data := None |} ]
                  {| text := None; inline_data := Some Sample.png |}
                  [] Sample.png eq_refl
                  ltac:(repeat constructor) eq_refl).
  - destruct (generate_image_calls_once_and_takes_first_inline
                (Sample.no_picture_at 0) Sample.state default_prompt1
                Sample.pet [])
      as (_ & _ & _ & H).
    destruct (H Sample.text_only eq_refl) as [_ Hnone].
    exact (Hnone ltac:(repeat constructor)).
  - destruct (generate_image_calls_once_and_takes_first_inline
                (Outage.no_content_at 0) Sample.state default_prompt1
                Sample.pet [])
      as (_ & _ & H & _).
    exact (H eq_refl).
Defined.

(** ** The uploader *)

(** C10, as stated, fails twice.  A host that reports success with a
    ["data"] that is no object, here [null], makes the uploader raise a
    type error, not a key error; and an answer that is no object, here an
    empty array, has no ["success"] field and makes the uploader raise an
    attribute error, not the value error. *)
Lemma success_without_data_object_is_no_key_error :
  let reports_success := JObj [("success", JBool true); ("data", JNull)] in
  let by_null :=
    fst (upload_to_imgbb (Outage.host_says reports_success) Sample.state
           Sample.drawing []) in
  let by_array :=
    fst (upload_to_imgbb (Outage.host_says (JArr [])) Sample.state
           Sample.drawing []) in
  (by_null = Raise (TypeError "NoneType") /\ is_key_error by_null = false) /\
  (by_array = Raise (AttributeError "list" "get") /\
   is_value_error by_array = false).
Proof.
  repeat split.
Qed.

(** C10, amended.  Whatever JSON value the host answers with, the uploader
    ends in one of these ways.  An answer that is no object raises an
    attribute error (it has no [get]).  An object whose ["success"] field
    is absent or falsy raises the value error that carries the answer.  An
    object with a truthy ["success"] gives the ["url"] field of the object
    under ["data"]; it raises a key error when ["data"] is absent or is an
    object without ["url"], and a type error when ["data"] is no object.
    A URL is returned only in the one case said, and no case returns an
    absence value. *)
Theorem upload_reads_success_then_nested_url
    (W : Externals) (st : module_state) (pil_image : image) (t : trace)
    (answer : json) :
  requests_post_json W t
    (imgbb_form W st (b64encode W (save_png W pil_image)) t) = Ok answer ->
  let outcome := fst (upload_to_imgbb W st pil_image t) in
  let failure := Raise (ValueError "imgBB upload failed: " answer) in
  ((forall fields, answer <> JObj fields) ->
   outcome = Raise (AttributeError (type_name answer) "get")) /\
  (forall fields, answer = JObj fields ->
     let success := dict_get "success" fields in
     (success = None -> outcome = failure) /\
     (forall v, success = Some v -> truthy v = false -> outcome = failure) /\
     (forall v, success = Some v -> truthy v = true ->
        (dict_get "data" fields = None -> outcome = Raise (KeyError "data")) /\
        (forall d, dict_get "data" fields = Some d ->
                   (forall inner, d <> JObj inner) ->
                   outcome = Raise (TypeError (type_name d))) /\
        (forall d, dict_get "data" fields = Some (JObj d) ->
                   dict_get "url" d = None ->
                   outcome = Raise (KeyError "url")) /\
        (forall d url, dict_get "data" fields = Some (JObj d) ->
                       dict_get "url" d = Some url -> outcome = Ok url))) /\
  (forall url, outcome = Ok url ->
     exists fields v d,
       answer = JObj fields /\
       dict_get "success" fields = Some v /\ truthy v = true /\
       dict_get "data" fields = Some (JObj d) /\
       dict_get "url" d = Some url).
Proof.
  intros Hanswer outcome failure. subst outcome failure.
  rewrite upload_to_imgbb_run. cbv zeta. rewrite Hanswer. cbn [fst].
  split; [apply read_upload_answer_not_a_dict|]. split.
  - intros fields ->. cbv zeta.
    unfold read_upload_answer, py_get, py_getitem, truthy_opt.
    split; [intros ->; reflexivity|].
    split; [intros v -> ->; reflexivity|].
    intros v -> Hv. rewrite Hv. repeat apply conj.
    + intros ->. reflexivity.
    + intros d -> Hd. destruct d; try reflexivity.
      exfalso. apply (Hd fields0). reflexivity.
    + intros d -> ->. reflexivity.
    + intros d url -> ->. reflexivity.
  - intros url. destruct answer; try discriminate.
    unfold read_upload_answer, py_get, py_getitem, truthy_opt.
    destruct (dict_get "success" fields) as [v|] eqn:Hs; [|discriminate].
    destruct (truthy v) eqn:Hv; [|discriminate].
    destruct (dict_get "data" fields) as [d|] eqn:Hd; [|discriminate].
    destruct d; try discriminate.
    destruct (dict_get "url" fields0) as [u|] eqn:Hu; [|discriminate].
    intros Hurl. injection Hurl as ->.
    exists fields, v, fields0. repeat split; assumption.
Qed.

Lemma upload_reads_success_then_nested_url_witness :
  fst (upload_to_imgbb Sample.happy Sample.state Sample.drawing [])
  = Ok (JStr "https://i.ibb.co/generated_0") /\
  fst (upload_to_imgbb
         (Outage.host_says (JObj [("success", JBool true); ("data", JNull)]))
         Sample.state Sample.drawing [])
  = Raise (TypeError "NoneType") /\
  fst (upload_to_imgbb (Outage.host_says (JArr [])) Sample.state
         Sample.drawing [])
  = Raise (AttributeError "list" "get").
Proof.
  split; [|split].
  - pose proof (upload_reads_success_then_nested_url
                  Sample.happy Sample.state Sample.drawing []
                  (Sample.host_accepts
                     {| form_key := Some "imgbb-key";
                        form_image := "iVBORw==";
                        form_name := "generated_0" |})
                  eq_refl) as (_ & H & _).
    destruct (H _ eq_refl) as (_ & _ & Hsuccess).
    destruct (Hsuccess (JBool true) eq_refl eq_refl) as (_ & _ & _ & Hurl).
    exact (Hurl [("id", JStr "generated_0");
                 ("url", JStr "https://i.ibb.co/generated_0")]
                (JStr "https://i.ibb.co/generated_0") eq_refl eq_refl).
  - pose proof (upload_reads_success_then_nested_url
                  (Outage.host_says
                     (JObj [("success", JBool true); ("data", JNull)]))
                  Sample.state Sample.drawing []
                  (JObj [("success", JBool true); ("data", JNull)])
                  eq_refl) as (_ & H & _).
    destruct (H _ eq_refl) as (_ & _ & Hsuccess).
    destruct (Hsuccess (JBool true) eq_refl eq_refl) as (_ & Htype & _).
    apply (Htype JNull eq_refl). intros inner. discriminate.
  - pose proof (upload_reads_success_then_nested_url
                  (Outage.host_says (JArr [])) Sample.state Sample.drawing []
                  (JArr []) eq_refl) as (H & _).
    apply H. intros fields. discriminate.
Defined.

(** ** The routes *)

Lemma route_generate (W : Externals) (st : module_state) (file : bytes)
    (prompt1 prompt2 : option string) (t0 : trace) :
  run_facts W st file (or_default prompt1 default_prompt1)
    (or_default prompt2 default_prompt2) t0
    (route W st (POST_api_generate file prompt1 prompt2) t0).
Proof.
  apply generate_image_api_run_facts.
Qed.

Lemma serve_of_raise (W : Externals) (st : module_state) (req : http_request)
    (t0 : trace) (x : exn) :
  fst (route W st req t0) = Raise x ->
  serve W st req t0 = (server_error, snd (route W st req t0)).
Proof.
  unfold serve. destruct (route W st req t0) as [[resp|y] t']; simpl.
  - discriminate.
  - reflexivity.
Qed.

Lemma serve_of_ok (W : Externals) (st : module_state) (req : http_request)
    (t0 : trace) (resp : http_response) :
  fst (route W st req t0) = Ok resp ->
  serve W st req t0 = (resp, snd (route W st req t0)).
Proof.
  unfold serve. destruct (route W st req t0) as [[resp'|y] t']; simpl.
  - intros H. injection H as ->. reflexivity.
  - discriminate.
Qed.

(** C3.  When the host's answer to an upload is a JSON object that does not
    report success, the uploader raises the value error that carries that
    answer; when such an upload happens in a request, the request ends with
    that error, and the caller gets the server error and no URL.  When the
    answer reports success, the uploader returns the URL nested in it. *)
Theorem upload_failure_aborts_the_request
    (W : Externals) (st : module_state) :
  (forall pil_image t fields,
     requests_post_json W t
       (imgbb_form W st (b64encode W (save_png W pil_image)) t)
     = Ok (JObj fields) ->
     truthy_opt (dict_get "success" fields) = false ->
     fst (upload_to_imgbb W st pil_image t)
     = Raise (ValueError "imgBB upload failed: " (JObj fields))) /\
  (forall pil_image t fields d url,
     requests_post_json W t
       (imgbb_form W st (b64encode W (save_png W pil_image)) t)
     = Ok (JObj fields) ->
     truthy_opt (dict_get "success" fields) = true ->
     dict_get "data" fields = Some (JObj d) ->
     dict_get "url" d = Some url ->
     fst (upload_to_imgbb W st pil_image t) = Ok url) /\
  (forall file prompt1 prompt2 t0 e payload,
     let req := POST_api_generate file prompt1 prompt2 in
     In e (issued t0 (snd (route W st req t0))) ->
     refused e payload ->
     fst (route W st req t0)
     = Raise (ValueError "imgBB upload failed: " payload) /\
     fst (serve W st req t0) = server_error).
Proof.
  repeat apply conj.
  - intros pil_image t fields Hanswer Hfalse.
    rewrite upload_to_imgbb_run. cbv zeta. rewrite Hanswer. cbn [fst].
    unfold read_upload_answer, py_get. rewrite Hfalse. reflexivity.
  - intros pil_image t fields d url Hanswer Hs Hd Hu.
    rewrite upload_to_imgbb_run. cbv zeta. rewrite Hanswer. cbn [fst].
    apply read_upload_answer_url with (d := d); assumption.
  - intros file prompt1 prompt2 t0 e payload req HIn Hrefused.
    destruct (route_generate W st file prompt1 prompt2 t0)
      as (evs & Htrace & _ & _ & Hfail & _).
    fold req in Htrace, Hfail. rewrite Htrace, issued_app in HIn.
    destruct (Hfail e _ HIn (refused_verdict W e payload Hrefused))
      as [Hraise _].
    split; [exact Hraise|].
    rewrite (serve_of_raise W st req t0 _ Hraise). reflexivity.
Qed.

Lemma upload_failure_aborts_the_request_witness :
  fst (route (Sample.host_refuses_at 0) Sample.state Sample.request [])
  = Raise (ValueError "imgBB upload failed: " Sample.host_rejects) /\
  fst (serve (Sample.host_refuses_at 0) Sample.state Sample.request [])
  = server_error.
Proof.
  destruct (upload_failure_aborts_the_request
              (Sample.host_refuses_at 0) Sample.state) as (_ & _ & H).
  apply (H Sample.photo None None []
           (ImgbbPost {| form_key := Some "imgbb-key";
                         form_image := "iVBORw==";
                         form_name := "generated_3" |}
                      (Ok Sample.host_rejects))
           Sample.host_rejects).
  - vm_compute. right. right. right. left. reflexivity.
  - eexists. eexists. split; [reflexivity|]. split; reflexivity.
Defined.

(** C9.  When the host refuses an upload of a request, the request ends
    there with the value error and the caller gets only the server error;
    no call follows the refused one, so nothing is taken back: the calls
    made before it stay in the history of the outside world, and every
    upload among them was taken by the host. *)
Theorem refused_upload_leaves_earlier_uploads_hosted
    (W : Externals) (st : module_state) (file : bytes)
    (prompt1 prompt2 : option string) (t0 : trace)
    (pre post : list event) (e : event) (payload : json) :
  let req := POST_api_generate file prompt1 prompt2 in
  issued t0 (snd (route W st req t0)) = pre ++ e :: post ->
  refused e payload ->
  fst (route W st req t0) = Raise (ValueError "imgBB upload failed: " payload) /\
  serve W st req t0 = (server_error, t0 ++ pre ++ [e]) /\
  post = [] /\
  (forall u, In u pre -> is_upload u = true -> hosted u).
Proof.
  intros req Hsplit Hrefused.
  destruct (route_generate W st file prompt1 prompt2 t0)
    as (evs & Htrace & _ & _ & Hfail & _).
  fold req in Htrace, Hfail. rewrite Htrace, issued_app in Hsplit. subst evs.
  pose proof (refused_verdict W e payload Hrefused) as Hverdict.
  destruct (Hfail e _ (in_elt e pre post) Hverdict)
    as (Hraise & pre' & Heq & Hpassed).
  destruct (failure_is_last (passes W) pre post pre' e e Heq Hpassed)
    as (-> & -> & _).
  { unfold passes. rewrite Hverdict. discriminate. }
  split; [exact Hraise|]. split.
  - rewrite (serve_of_raise W st req t0 _ Hraise), Htrace. reflexivity.
  - split; [reflexivity|].
    intros u HIn Hup. apply (passed_upload_is_hosted W); [|exact Hup].
    rewrite Forall_forall in Hpassed. exact (Hpassed u HIn).
Qed.

Lemma refused_upload_leaves_earlier_uploads_hosted_witness :
  let run := route (Sample.host_refuses_at 2) Sample.state Sample.request [] in
  fst run = Raise (ValueError "imgBB upload failed: " Sample.host_rejects) /\
  map label_of (snd run)
  = [LGenerate default_prompt1; LGenerate default_prompt2;
     LRemove; LUpload; LUpload; LRemove; LUpload] /\
  (forall u, In u (firstn 6 (snd run)) -> is_upload u = true -> hosted u).
Proof.
  intros run.
  assert (Hsplit :
    issued [] (snd (route (Sample.host_refuses_at 2) Sample.state
                      (POST_api_generate Sample.photo None None) []))
    = firstn 6 (snd run)
      ++ ImgbbPost {| form_key := Some "imgbb-key";
                      form_image := "iVBORw==";
                      form_name := "generated_6" |}
                   (Ok Sample.host_rejects) :: [])
    by (vm_compute; reflexivity).
  assert (Hrefused :
    refused (ImgbbPost {| form_key := Some "imgbb-key";
                          form_image := "iVBORw==";
                          form_name := "generated_6" |}
                       (Ok Sample.host_rejects)) Sample.host_rejects)
    by (eexists; eexists; split; [reflexivity|]; split; reflexivity).
  destruct (refused_upload_leaves_earlier_uploads_hosted
              (Sample.host_refuses_at 2) Sample.state Sample.photo None None []
              (firstn 6 (snd run)) [] _ Sample.host_rejects Hsplit Hrefused)
    as (Hraise & _ & _ & Hhosted).
  split; [exact Hraise|]. split; [reflexivity | exact Hhosted].
Defined.

(** C2, as stated, fails: when the first generation comes back without a
    picture the request ends with an attribute error, not a type error.
    The absence value has no [save]; the error is raised on entry to the
    background remover, before the removal routine is called: the only
    calls of the request are the two generations. *)
Lemma missing_picture_raises_attribute_error :
  let run := route (Sample.no_picture_at 0) Sample.state Sample.request [] in
  fst run = Raise (AttributeError "NoneType" "save") /\
  is_type_error (fst run) = false /\
  map label_of (snd run)
  = [LGenerate default_prompt1; LGenerate default_prompt2].
Proof.
  repeat split.
Qed.

(** C2, amended.  When the generation service's response has no part with
    inline data for one of the prompts, the request fails: the handler
    raises, and the caller gets the server error, with no URL, partial or
    null, for any variation.  There are two ways.  A response with a list
    of parts, none with inline data, gives the absence value, which reaches
    the background remover unchecked; the remover raises an attribute error
    (the absence value has no [save]) without calling the removal routine,
    and that attribute error is the handler's exception unless a call of
    the request failed.  A response without a list of parts makes the
    generation caller itself raise a type error; the request ends with that
    call and the absence value is never made. *)
Theorem missing_picture_fails_the_request
    (W : Externals) (st : module_state) (file : bytes)
    (prompt1 prompt2 : option string) (t0 : trace) (e : event) :
  let req := POST_api_generate file prompt1 prompt2 in
  let run := route W st req t0 in
  In e (issued t0 (snd run)) ->
  pictureless e \/ partless e ->
  (exists x, fst run = Raise x) /\
  fst (serve W st req t0) = server_error /\
  (forall t, remove_background W None t
             = (Raise (AttributeError "NoneType" "save"), t)) /\
  (pictureless e -> Forall (passes W) (issued t0 (snd run)) ->
   fst run = Raise (AttributeError "NoneType" "save")) /\
  (partless e ->
   fst run = Raise (TypeError "NoneType") /\
   exists pre, issued t0 (snd run) = (pre ++ [e])%list /\
               Forall (passes W) pre).
Proof.
  intros req run HIn Hmiss.
  destruct (route_generate W st file prompt1 prompt2 t0)
    as (evs & Htrace & _ & _ & Hfail & Hmissing & _).
  fold req in Htrace, Hfail, Hmissing. fold run in Htrace, Hfail, Hmissing.
  rewrite Htrace, issued_app in *.
  assert (Hpartless : partless e ->
            fst run = Raise (TypeError "NoneType") /\
            exists pre, evs = (pre ++ [e])%list /\ Forall (passes W) pre).
  { intros (c & model & prompt & img & ->).
    exact (Hfail _ (TypeError "NoneType") HIn eq_refl). }
  assert (Hraise : exists x, fst run = Raise x).
  { destruct Hmiss as [Hp|Hp].
    - destruct (Hmissing e HIn Hp) as (x & Hx & _). exists x. exact Hx.
    - exists (TypeError "NoneType"). exact (proj1 (Hpartless Hp)). }
  split; [exact Hraise|]. split.
  - destruct Hraise as (x & Hx). unfold run in Hx.
    rewrite (serve_of_raise W st req t0 _ Hx). reflexivity.
  - split; [reflexivity|]. split; [|exact Hpartless].
    intros Hp Hall. destruct (Hmissing e HIn Hp) as (x & Hx & Hattr).
    rewrite Hx. f_equal. exact (Hattr Hall).
Qed.

Lemma missing_picture_fails_the_request_witness :
  let run := route (Sample.no_picture_at 1) Sample.state Sample.request [] in
  let run' := route (Outage.no_content_at 1) Sample.state Sample.request [] in
  (fst run = Raise (AttributeError "NoneType" "save") /\
   fst (serve (Sample.no_picture_at 1) Sample.state Sample.request [])
   = server_error /\
   map label_of (snd run)
   = [LGenerate default_prompt1; LGenerate default_prompt2;
      LRemove; LUpload; LUpload]) /\
  (fst run' = Raise (TypeError "NoneType") /\
   fst (serve (Outage.no_content_at 1) Sample.state Sample.request [])
   = server_error /\
   map label_of (snd run')
   = [LGenerate default_prompt1; LGenerate default_prompt2]).
Proof.
  intros run run'. split.
  - assert (HIn :
      In (GenerateContent (client Sample.state) "gemini-2.5-flash-image"
            default_prompt2 Sample.pet (Ok (Some Sample.text_only)))
         (issued [] (snd (route (Sample.no_picture_at 1) Sample.state
                            (POST_api_generate Sample.photo None None) []))))
      by (vm_compute; right; left; reflexivity).
    assert (Hpictureless :
      pictureless (GenerateContent (client Sample.state)
                     "gemini-2.5-flash-image" default_prompt2 Sample.pet
                     (Ok (Some Sample.text_only))))
      by (do 5 eexists; split; [reflexivity | repeat constructor]).
    destruct (missing_picture_fails_the_request
                (Sample.no_picture_at 1) Sample.state Sample.photo None None []
                _ HIn (or_introl Hpictureless))
      as (_ & Hserve & _ & Hattr & _).
    split; [|split; [exact Hserve | reflexivity]].
    apply (Hattr Hpictureless). vm_compute. repeat constructor.
  - assert (HIn :
      In (GenerateContent (client Sample.state) "gemini-2.5-flash-image"
            default_prompt2 Sample.pet (Ok None))
         (issued [] (snd (route (Outage.no_content_at 1) Sample.state
                            (POST_api_generate Sample.photo None None) []))))
      by (vm_compute; right; left; reflexivity).
    assert (Hpartless :
      partless (GenerateContent (client Sample.state)
                  "gemini-2.5-flash-image" default_prompt2 Sample.pet
                  (Ok None)))
      by (do 4 eexists; reflexivity).
    destruct (missing_picture_fails_the_request
                (Outage.no_content_at 1) Sample.state Sample.photo None None []
                _ HIn (or_intror Hpartless))
      as (_ & Hserve & _ & _ & Htype).
    split; [exact (proj1 (Htype Hpartless))|].
    split; [exact Hserve | reflexivity].
Defined.

(** C7.  Within a request the calls to the outside are made one after the
    other, each put to its service when all the earlier ones have been
    answered, and in this order: the generation for the first prompt, the
    generation for the second prompt, then for variation 1 the removal of
    the background, the upload of the preview and the upload of the
    high-resolution variant, then the same three for variation 2.  A
    request that fails stops somewhere along that order; one that returns
    has made exactly these eight calls, and its response lists variation 1
    and then variation 2, each with the URLs of its own two uploads. *)
Theorem calls_are_sequential_and_in_order
    (W : Externals) (st : module_state) (file : bytes)
    (prompt1 prompt2 : option string) (t0 : trace) :
  let p1 := or_default prompt1 default_prompt1 in
  let p2 := or_default prompt2 default_prompt2 in
  let run := route W st (POST_api_generate file prompt1 prompt2) t0 in
  let evs := issued t0 (snd run) in
  snd run = t0 ++ evs /\
  sequential W t0 evs /\
  (exists rest, schedule p1 p2 = map label_of evs ++ rest) /\
  (forall resp, fst run = Ok resp ->
     map label_of evs = schedule p1 p2 /\
     complete_run W st file p1 p2 evs resp).
Proof.
  intros p1 p2 run evs.
  destruct (route_generate W st file prompt1 prompt2 t0)
    as (evs' & Htrace & Hseq & Hprefix & _ & _ & Hok & _).
  fold p1 p2 in Hseq, Hprefix, Hok. fold run in Htrace, Hok.
  assert (Hevs : evs = evs') by (unfold evs; rewrite Htrace; apply issued_app).
  rewrite Hevs.
  split; [exact Htrace|]. split; [exact Hseq|]. split; [exact Hprefix|].
  intros resp Hresp. pose proof (Hok resp Hresp) as Hrun.
  split; [|exact Hrun].
  destruct Hrun as (input_image & e1 & img1 & e2 & img2 & r1 & b1 & u1 & x1
                    & h1 & x2 & r2 & b2 & u3 & x3 & h2 & x4
                    & _ & -> & (parts1 & -> & _) & (parts2 & -> & _)
                    & (out1 & -> & _) & (f1 & d1 & -> & _)
                    & (f2 & d2 & -> & _) & (out2 & -> & _)
                    & (f3 & d3 & -> & _) & (f4 & d4 & -> & _) & _).
  reflexivity.
Qed.

Lemma calls_are_sequential_and_in_order_witness :
  let run := route Sample.happy Sample.state Sample.request [] in
  map label_of (snd run) = schedule default_prompt1 default_prompt2 /\
  sequential Sample.happy [] (snd run) /\
  complete_run Sample.happy Sample.state Sample.photo
    default_prompt1 default_prompt2 (snd run)
    {| status_code := 200;
       content :=
         JObj [("images",
                JArr [variation_record 1 (JStr "https://i.ibb.co/generated_3")
                                         (JStr "https://i.ibb.co/generated_4");
                      variation_record 2 (JStr "https://i.ibb.co/generated_6")
                                         (JStr "https://i.ibb.co/generated_7")])]
    |}.
Proof.
  intros run.
  destruct (calls_are_sequential_and_in_order
              Sample.happy Sample.state Sample.photo None None [])
    as (_ & Hseq & _ & Hok).
  destruct (Hok _ eq_refl) as [Hlabels Hrun].
  split; [exact Hlabels|]. split; [exact Hseq | exact Hrun].
Defined.

(** C1.  For a request to POST /api/generate with a file that decodes and
    the default prompts, when every call the request makes to the outside
    succeeds (the generation gives a response with a picture, the removal
    gives a picture, the host reports success with a non-empty URL string),
    the response has status 200 and its body is an object whose ["images"]
    are exactly two records, the first with variation 1 and the second with
    variation 2, each with a non-empty string as preview URL and as
    high-resolution URL. *)
Theorem generate_returns_two_variations
    (W : Externals) (st : module_state) (file : bytes) (input_image : image)
    (t0 : trace) :
  let req := POST_api_generate file None None in
  Image_open W file = Ok input_image ->
  forallb (succeeded W) (issued t0 (snd (route W st req t0))) = true ->
  exists preview1 highres1 preview2 highres2 : string,
    (preview1 <> "" /\ highres1 <> "" /\ preview2 <> "" /\ highres2 <> "") /\
    fst (serve W st req t0)
    = {| status_code := 200;
         content :=
           JObj [("images",
                  JArr [JObj [("variation", JInt 1);
                              ("preview_url", JStr preview1);
                              ("highres_url", JStr highres1)];
                        JObj [("variation", JInt 2);
                              ("preview_url", JStr preview2);
                              ("highres_url", JStr highres2)]])] |}.
Proof.
  intros req Hfile Hall.
  destruct (route_generate W st file None None t0)
    as (evs & Htrace & _ & _ & _ & _ & Hok & Hraise).
  fold req in Htrace, Hok, Hraise.
  rewrite Htrace, issued_app in Hall.
  assert (Hgood : forall e, In e evs ->
            passes W e /\ ~ pictureless e /\
            (forall form data url,
               e = ImgbbPost form (Ok data) -> read_upload_answer data = Ok url ->
               exists s, url = JStr s /\ s <> "")).
  { intros e HIn. apply succeeded_spec.
    rewrite forallb_forall in Hall. exact (Hall e HIn). }
  destruct (fst (route W st req t0)) as [resp|x] eqn:Hrun.
  - rewrite (serve_of_ok W st _ t0 resp Hrun). cbn [fst].
    destruct (Hok resp eq_refl)
      as (input' & e1 & img1 & e2 & img2 & r1 & b1 & u1 & x1
          & h1 & x2 & r2 & b2 & u3 & x3 & h2 & x4
          & _ & Hevs & _ & _ & _ & (f1 & d1 & E1 & _ & R1)
          & (f2 & d2 & E2 & _ & R2) & _
          & (f3 & d3 & E3 & _ & R3) & (f4 & d4 & E4 & _ & R4) & Hresp).
    destruct (proj2 (proj2 (Hgood u1 ltac:(rewrite Hevs; cbn [In]; tauto)))
                f1 d1 x1 E1 R1) as (s1 & -> & S1).
    destruct (proj2 (proj2 (Hgood h1 ltac:(rewrite Hevs; cbn [In]; tauto)))
                f2 d2 x2 E2 R2) as (s2 & -> & S2).
    destruct (proj2 (proj2 (Hgood u3 ltac:(rewrite Hevs; cbn [In]; tauto)))
                f3 d3 x3 E3 R3) as (s3 & -> & S3).
    destruct (proj2 (proj2 (Hgood h2 ltac:(rewrite Hevs; cbn [In]; tauto)))
                f4 d4 x4 E4 R4) as (s4 & -> & S4).
    injection Hresp as <-.
    exists s1, s2, s3, s4. split; [repeat split; assumption | reflexivity].
  - exfalso.
    destruct (Hraise x eq_refl)
      as [[_ Hopen]|[(e & HIn & Hv)|[(e & HIn & Hp)|(_ & _ & Hrender)]]].
    + rewrite Hfile in Hopen. discriminate Hopen.
    + destruct (Hgood e HIn) as (Hpass & _). unfold passes in Hpass.
      rewrite Hpass in Hv. discriminate Hv.
    + destruct (Hgood e HIn) as (_ & Hnot & _). exact (Hnot Hp).
    + rewrite (body_of_strings_renders _ (succeeded_urls_are_strings W evs Hall))
        in Hrender.
      discriminate Hrender.
Qed.

Lemma generate_returns_two_variations_witness :
  Image_open Sample.happy Sample.photo = Ok Sample.pet /\
  forallb (succeeded Sample.happy)
    (issued [] (snd (route Sample.happy Sample.state Sample.request [])))
  = true /\
  exists preview1 highres1 preview2 highres2 : string,
    (preview1 <> "" /\ highres1 <> "" /\ preview2 <> "" /\ highres2 <> "") /\
    fst (serve Sample.happy Sample.state Sample.request [])
    = {| status_code := 200;
         content :=
           JObj [("images",
                  JArr [JObj [("variation", JInt 1);
                              ("preview_url", JStr preview1);
                              ("highres_url", JStr highres1)];
                        JObj [("variation", JInt 2);
                              ("preview_url", JStr preview2);
                              ("highres_url", JStr highres2)]])] |}.
Proof.
  split; [reflexivity|]. split; [reflexivity|].
  apply (generate_returns_two_variations
           Sample.happy Sample.state Sample.photo Sample.pet []);
    reflexivity.
Defined.

(** C8, as stated, fails: the module builds the generation client when it
    is loaded, from whatever [GEMINI_KEY] holds.  Where the key is missing
    and the client's constructor refuses that, the module does not load,
    and no request is answered, GET / no more than another. *)
Lemma home_needs_the_module_to_load :
  load_module Outage.strict_sdk Outage.no_keys
  = Raise (ValueError "Missing key inputs argument!" JNull) /\
  deployed Outage.strict_sdk Outage.no_keys GET_root []
  = Raise (ValueError "Missing key inputs argument!" JNull) /\
  deployed Outage.strict_sdk Outage.no_keys GET_root []
  <> Ok ({| status_code := 200; content := JStr welcome |}, []).
Proof.
  split; [reflexivity|]. split; [reflexivity | discriminate].
Qed.

(** C8, amended.  Once the module is loaded, GET / returns status 200 with
    the welcome string and calls nothing, whatever the keys were (a wrong
    key, a missing key for the host) and at any point of the history.  The
    module loads when, and only when, the generation client could be built
    from what [GEMINI_KEY] holds; when its constructor raises, the
    application is not there and no request is answered. *)
Theorem home_always_welcomes
    (W : Externals) (getenv : string -> option string) (t : trace) :
  (forall st,
     serve W st GET_root t
     = ({| status_code := 200; content := JStr welcome |}, t)) /\
  (forall c,
     genai_Client W (getenv "GEMINI_KEY") = Ok c ->
     deployed W getenv GET_root t
     = Ok ({| status_code := 200; content := JStr welcome |}, t)) /\
  (forall x,
     genai_Client W (getenv "GEMINI_KEY") = Raise x ->
     forall req, deployed W getenv req t = Raise x).
Proof.
  split; [reflexivity|]. split.
  - intros c Hc. unfold deployed, load_module. rewrite Hc. reflexivity.
  - intros x Hx req. unfold deployed, load_module. rewrite Hx. reflexivity.
Qed.

Lemma home_always_welcomes_witness :
  deployed Sample.happy Sample.getenv GET_root []
  = Ok ({| status_code := 200; content := JStr welcome |}, []) /\
  deployed Outage.strict_sdk Sample.getenv GET_root []
  = Ok ({| status_code := 200; content := JStr welcome |}, []) /\
  deployed Outage.strict_sdk Outage.no_keys Sample.request []
  = Raise (ValueError "Missing key inputs argument!" JNull).
Proof.
  split; [|split].
  - destruct (home_always_welcomes Sample.happy Sample.getenv [])
      as (_ & H & _).
    exact (H {| api_key := Some "not-a-valid-key" |} eq_refl).
  - destruct (home_always_welcomes Outage.strict_sdk Sample.getenv [])
      as (_ & H & _).
    exact (H {| api_key := Some "not-a-valid-key" |} eq_refl).
  - destruct (home_always_welcomes Outage.strict_sdk Outage.no_keys [])
      as (_ & _ & H).
    exact (H _ eq_refl Sample.request).
Defined.

(** * Further properties of the code *)

Lemma route_details (W : Externals) (st : module_state) (file : bytes)
    (prompt1 prompt2 : option string) (t0 : trace) :
  run_details W st file (or_default prompt1 default_prompt1)
    (or_default prompt2 default_prompt2) t0
    (route W st (POST_api_generate file prompt1 prompt2) t0).
Proof.
  apply generate_image_api_run_details.
Qed.

Lemma pictureless_passes (W : Externals) (e : event) :
  pictureless e -> passes W e.
Proof.
  intros (c & model & prompt & img & parts & -> & Hnone).
  unfold passes. cbn [verdict scan_parts].
  rewrite (first_inline_image_none W parts Hnone). reflexivity.
Qed.

Lemma truthy_false_iff (v : json) : truthy v = false <-> falsy v.
Proof.
  unfold falsy. split.
  - destruct v as [|b|z|q|f|s|s|items|fields]; cbn [truthy]; intros H.
    + left. reflexivity.
    + right. left. subst b. reflexivity.
    + right. right. left. apply negb_false_iff, Z.eqb_eq in H. subst z.
      reflexivity.
    + right. right. right. left. exists q. split; [reflexivity|].
      apply negb_false_iff, Z.eqb_eq in H. exact H.
    + discriminate H.
    + destruct s; [|discriminate H]. do 4 right. left. reflexivity.
    + discriminate H.
    + destruct items; [|discriminate H]. do 5 right. left. reflexivity.
    + destruct fields; [|discriminate H]. do 6 right. reflexivity.
  - intros [->|[->|[->|[(q & -> & Hq)|[->|[->| ->]]]]]]; cbn [truthy];
      try reflexivity.
    rewrite Hq. reflexivity.
Qed.

(** A response that was built has status 200 and the content it was given. *)
Lemma JSONResponse_ok (c : json) (resp : http_response) :
  JSONResponse c = Ok resp -> resp = {| status_code := 200; content := c |}.
Proof.
  unfold JSONResponse.
  destruct (first_nonfinite c); [discriminate|].
  destruct (encodable c); [|discriminate].
  intros H. injection H as <-. reflexivity.
Qed.

(** Where a result of the loop over the parts comes from. *)
Lemma first_inline_image_inv (W : Externals) (parts : list part) :
  match first_inline_image (Image_open W) parts with
  | Ok None => Forall (fun q => inline_data q = None) parts
  | Ok (Some img) =>
      exists before p after img_bytes,
        parts = before ++ p :: after /\
        Forall (fun q => inline_data q = None) before /\
        inline_data p = Some img_bytes /\
        Image_open W img_bytes = Ok img
  | Raise x =>
      exists before p after img_bytes,
        parts = before ++ p :: after /\
        Forall (fun q => inline_data q = None) before /\
        inline_data p = Some img_bytes /\
        Image_open W img_bytes = Raise x
  end.
Proof.
  induction parts as [|q parts IH]; cbn [first_inline_image].
  - constructor.
  - destruct (inline_data q) as [img_bytes|] eqn:Hq.
    + destruct (Image_open W img_bytes) as [img|x] eqn:Hopen;
        exists [], q, parts, img_bytes; repeat split; auto.
    + destruct (first_inline_image (Image_open W) parts) as [[img|]|x].
      * destruct IH as (before & p & after & img_bytes & -> & Hb & Hp & Ho).
        exists (q :: before), p, after, img_bytes.
        repeat split; auto.
      * constructor; assumption.
      * destruct IH as (before & p & after & img_bytes & -> & Hb & Hp & Ho).
        exists (q :: before), p, after, img_bytes.
        repeat split; auto.
Qed.

(** X1.  A file that Pillow cannot decode ends the request at once: the
    handler raises the decoder's exception, the caller gets the server
    error, and no service is called.  A file that decodes is always
    followed by the generation call for the first prompt, with the decoded
    picture. *)
Theorem undecodable_upload_calls_nothing
    (W : Externals) (st : module_state) (file : bytes)
    (prompt1 prompt2 : option string) (t0 : trace) :
  let req := POST_api_generate file prompt1 prompt2 in
  (forall x, Image_open W file = Raise x ->
     route W st req t0 = (Raise x, t0) /\
     serve W st req t0 = (server_error, t0)) /\
  (forall img, Image_open W file = Ok img ->
     exists answer rest,
       issued t0 (snd (route W st req t0))
       = GenerateContent (client st) "gemini-2.5-flash-image"
           (or_default prompt1 default_prompt1) img answer :: rest).
Proof.
  intros req. split.
  - intros x Hopen.
    assert (Hroute : route W st req t0 = (Raise x, t0)).
    { unfold req, route, generate_image_api, bind, lift. rewrite Hopen.
      reflexivity. }
    split; [exact Hroute|]. unfold serve. rewrite Hroute. reflexivity.
  - intros img Hopen.
    destruct (route_details W st file prompt1 prompt2 t0)
      as (evs & Htrace & _ & _ & _ & Hfirst & _).
    fold req in Htrace. rewrite Htrace, issued_app.
    exact (Hfirst img Hopen).
Qed.

Lemma undecodable_upload_calls_nothing_witness :
  route Outage.no_decoder Sample.state Sample.request []
  = (Raise UnidentifiedImageError, []) /\
  serve Outage.no_decoder Sample.state Sample.request []
  = (server_error, []).
Proof.
  destruct (undecodable_upload_calls_nothing
              Outage.no_decoder Sample.state Sample.photo None None [])
    as [H _].
  exact (H UnidentifiedImageError eq_refl).
Defined.

(** X2.  Whatever goes wrong in a call of a request (the service raises, a
    picture does not decode, the host's answer cannot be read), that call is
    the last one of the request, every call before it passed, the handler
    raises that very exception and the caller gets the server error. *)
Theorem failed_call_ends_the_request
    (W : Externals) (st : module_state) (file : bytes)
    (prompt1 prompt2 : option string) (t0 : trace) (e : event) (x : exn) :
  let req := POST_api_generate file prompt1 prompt2 in
  In e (issued t0 (snd (route W st req t0))) ->
  verdict W e = Some x ->
  fst (route W st req t0) = Raise x /\
  fst (serve W st req t0) = server_error /\
  exists pre,
    issued t0 (snd (route W st req t0)) = pre ++ [e] /\
    Forall (passes W) pre.
Proof.
  intros req HIn Hverdict.
  destruct (route_generate W st file prompt1 prompt2 t0)
    as (evs & Htrace & _ & _ & Hfail & _).
  fold req in Htrace, Hfail. rewrite Htrace, issued_app in *.
  destruct (Hfail e x HIn Hverdict) as (Hraise & pre & Heq & Hpass).
  split; [exact Hraise|]. split.
  - rewrite (serve_of_raise W st req t0 x Hraise). reflexivity.
  - exists pre. split; assumption.
Qed.

Lemma failed_call_ends_the_request_witness :
  let run := route (Outage.generation_down_at 1) Sample.state Sample.request [] in
  fst run = Raise (ServiceError "503 UNAVAILABLE") /\
  fst (serve (Outage.generation_down_at 1) Sample.state Sample.request [])
  = server_error /\
  map label_of (snd run)
  = [LGenerate default_prompt1; LGenerate default_prompt2].
Proof.
  intros run.
  destruct (failed_call_ends_the_request
              (Outage.generation_down_at 1) Sample.state Sample.photo None None
              []
              (GenerateContent (client Sample.state) "gemini-2.5-flash-image"
                 default_prompt2 Sample.pet
                 (Raise (ServiceError "503 UNAVAILABLE")))
              (ServiceError "503 UNAVAILABLE"))
    as (Hraise & Hserve & _).
  - vm_compute. right. left. reflexivity.
  - reflexivity.
  - split; [exact Hraise|]. split; [exact Hserve | reflexivity].
Defined.

(** X3.  There is no partial success: the answer to POST /api/generate
    either has status 200 or is the server error.  It has status 200
    exactly when the request made eight calls that all passed and the
    response could be rendered from the four URLs of the uploads.  Eight
    passed calls alone are not enough: the request then ends as the
    rendering of the response does, which fails, and leaves the caller
    with the server error, when a URL that the host gave is a float outside
    the numbers of JSON or a string with a lone surrogate. *)
Theorem ok_response_means_eight_passed_calls
    (W : Externals) (st : module_state) (file : bytes)
    (prompt1 prompt2 : option string) (t0 : trace) :
  let req := POST_api_generate file prompt1 prompt2 in
  let run := route W st req t0 in
  let evs := issued t0 (snd run) in
  let rendering := JSONResponse (response_body (hosted_urls evs)) in
  (status_code (fst (serve W st req t0)) = 200
   <-> List.length evs = 8%nat /\ Forall (passes W) evs /\
       exists resp, rendering = Ok resp) /\
  (List.length evs = 8%nat -> Forall (passes W) evs -> fst run = rendering) /\
  (status_code (fst (serve W st req t0)) = 200 \/
   fst (serve W st req t0) = server_error).
Proof.
  intros req run evs rendering.
  destruct (route_generate W st file prompt1 prompt2 t0)
    as (evs1 & Htrace & _ & _ & Hfail & _ & Hok & _).
  destruct (route_details W st file prompt1 prompt2 t0)
    as (evs2 & Htrace2 & _ & Height & _).
  fold req in Htrace, Htrace2, Hfail, Hok, Height.
  fold run in Htrace, Htrace2, Hfail, Hok, Height.
  assert (Hevs : evs = evs1) by (unfold evs; rewrite Htrace; apply issued_app).
  assert (Hsame : evs2 = evs1).
  { rewrite Htrace in Htrace2. exact (eq_sym (app_inv_head _ _ _ Htrace2)). }
  subst evs2. unfold rendering. rewrite Hevs. clear rendering.
  assert (Hstatus : forall resp, fst run = Ok resp -> status_code resp = 200).
  { intros resp Hresp.
    destruct (Hok resp Hresp)
      as (? & ? & ? & ? & ? & ? & ? & ? & ? & ? & ? & ? & ? & ? & ? & ? & ?
          & _ & _ & _ & _ & _ & _ & _ & _ & _ & _ & Hrender).
    rewrite (JSONResponse_ok _ _ Hrender). reflexivity. }
  split; [|split; [exact Height|]].
  - destruct (fst run) as [resp|x] eqn:Hrun; unfold run in Hrun.
    + rewrite (serve_of_ok W st req t0 resp Hrun). cbn [fst].
      split; [intros _ | intros _; apply Hstatus; reflexivity].
      assert (Hlen : List.length evs1 = 8%nat).
      { destruct (Hok resp eq_refl)
          as (? & ? & ? & ? & ? & ? & ? & ? & ? & ? & ? & ? & ? & ? & ? & ? & ?
              & _ & -> & _). reflexivity. }
      assert (Hpass : Forall (passes W) evs1).
      { apply Forall_forall. intros e HIn. unfold passes.
        destruct (verdict W e) as [y|] eqn:Hv; [|reflexivity].
        destruct (Hfail e y HIn Hv) as [Hraise _]. discriminate Hraise. }
      split; [exact Hlen|]. split; [exact Hpass|].
      exists resp. symmetry. exact (Height Hlen Hpass).
    + rewrite (serve_of_raise W st req t0 x Hrun). cbn [fst].
      split; [intros H; discriminate H|].
      intros (Hlen & Hpass & resp & Hresp).
      rewrite <- (Height Hlen Hpass) in Hresp. discriminate Hresp.
  - destruct (fst run) as [resp|x] eqn:Hrun; unfold run in Hrun.
    + rewrite (serve_of_ok W st req t0 resp Hrun). cbn [fst].
      left. apply Hstatus. reflexivity.
    + rewrite (serve_of_raise W st req t0 x Hrun). right. reflexivity.
Qed.

Lemma ok_response_means_eight_passed_calls_witness :
  status_code (fst (serve Sample.happy Sample.state Sample.request [])) = 200 /\
  fst (serve (Sample.host_refuses_at 3) Sample.state Sample.request [])
  = server_error /\
  (let W := Outage.host_says Outage.url_out_of_range in
   let run := route W Sample.state Sample.request [] in
   List.length (snd run) = 8%nat /\
   Forall (passes W) (snd run) /\
   fst run
   = Raise (ValueError "Out of range float values are not JSON compliant: "
              (JNonFinite PosInf)) /\
   fst (serve W Sample.state Sample.request []) = server_error).
Proof.
  split; [|split].
  - destruct (ok_response_means_eight_passed_calls
                Sample.happy Sample.state Sample.photo None None [])
      as [[_ H] _].
    apply H. split; [reflexivity|]. split; [vm_compute; repeat constructor|].
    eexists. reflexivity.
  - destruct (ok_response_means_eight_passed_calls
                (Sample.host_refuses_at 3) Sample.state Sample.photo None None
                [])
      as (_ & _ & [H|H]); [discriminate H | exact H].
  - intros W run.
    assert (Hlen : List.length (snd run) = 8%nat) by reflexivity.
    assert (Hpass : Forall (passes W) (snd run))
      by (vm_compute; repeat constructor).
    destruct (ok_response_means_eight_passed_calls
                W Sample.state Sample.photo None None [])
      as (_ & H & _).
    pose proof (H Hlen Hpass) as Hrun.
    split; [exact Hlen|]. split; [exact Hpass|].
    split; [exact Hrun|]. reflexivity.
Defined.

(** X4.  In every request, whether it returns or fails, each call gets what
    the handler derived and nothing else: a generation gets the module's
    client, the model ["gemini-2.5-flash-image"], the decoded upload and one
    of the two prompts; a removal gets the PNG bytes of a picture that a
    generation of this request gave; an upload carries the module's host
    key, a name that starts with ["generated_"], and the preview or the
    high-resolution variant of a picture that a removal of this request
    gave. *)
Theorem calls_carry_what_the_handler_derived
    (W : Externals) (st : module_state) (file : bytes)
    (prompt1 prompt2 : option string) (t0 : trace) :
  let evs := issued t0 (snd (route W st (POST_api_generate file prompt1 prompt2)
                               t0)) in
  Forall (call_in_order W st file (or_default prompt1 default_prompt1)
            (or_default prompt2 default_prompt2) evs) evs.
Proof.
  intros evs.
  destruct (route_details W st file prompt1 prompt2 t0)
    as (evs' & Htrace & Hcalls & _).
  assert (Hevs : evs = evs') by (unfold evs; rewrite Htrace; apply issued_app).
  rewrite Hevs. exact Hcalls.
Qed.



(** X6.  The uploader judges the host's success flag by Python truthiness,
    not by its being [true]: for an object answer that has the flag, the
    value error is raised exactly when the flag is [null], [false], a zero,
    an empty string, an empty array or an empty object.  Any non-empty
    string counts as success, also ["false"]. *)
Theorem success_flag_is_judged_by_truthiness
    (W : Externals) (st : module_state) (pil_image : image) (t : trace)
    (fields : list (string * json)) (v : json) :
  requests_post_json W t
    (imgbb_form W st (b64encode W (save_png W pil_image)) t) = Ok (JObj fields) ->
  dict_get "success" fields = Some v ->
  let outcome := fst (upload_to_imgbb W st pil_image t) in
  let failure := Raise (ValueError "imgBB upload failed: " (JObj fields)) in
  (outcome = failure <-> falsy v) /\
  (forall a s, v = JStr (String a s) -> outcome <> failure).
Proof.
  intros Hanswer Hflag outcome failure.
  assert (Hiff : outcome = failure <-> truthy v = false).
  { subst outcome failure. rewrite upload_to_imgbb_run. cbv zeta.
    rewrite Hanswer. cbn [fst].
    unfold read_upload_answer, py_get, py_getitem, truthy_opt. rewrite Hflag.
    destruct (truthy v); split; intros H; try reflexivity; try discriminate H.
    destruct (dict_get "data" fields) as [d|]; [|discriminate H].
    destruct d; try discriminate H.
    destruct (dict_get "url" fields0); discriminate H. }
  split.
  - rewrite Hiff. apply truthy_false_iff.
  - intros a s -> H. apply Hiff in H. discriminate H.
Qed.

Lemma success_flag_is_judged_by_truthiness_witness :
  fst (upload_to_imgbb
         (Outage.host_says (JObj [("success", JStr "false")]))
         Sample.state Sample.drawing [])
  <> Raise (ValueError "imgBB upload failed: "
              (JObj [("success", JStr "false")])) /\
  fst (upload_to_imgbb
         (Outage.host_says (JObj [("success", JInt 0);
                                  ("data", JObj [("url", JStr "u")])]))
         Sample.state Sample.drawing [])
  = Raise (ValueError "imgBB upload failed: "
             (JObj [("success", JInt 0);
                    ("data", JObj [("url", JStr "u")])])).
Proof.
  split.
  - destruct (success_flag_is_judged_by_truthiness
                (Outage.host_says (JObj [("success", JStr "false")]))
                Sample.state Sample.drawing []
                [("success", JStr "false")] (JStr "false") eq_refl eq_refl)
      as [_ H].
    exact (H "f"%char "alse" eq_refl).
  - destruct (success_flag_is_judged_by_truthiness
                (Outage.host_says (JObj [("success", JInt 0);
                                         ("data", JObj [("url", JStr "u")])]))
                Sample.state Sample.drawing []
                [("success", JInt 0); ("data", JObj [("url", JStr "u")])]
                (JInt 0) eq_refl eq_refl)
      as [H _].
    apply H. right. right. left. reflexivity.
Defined.

(** X7.  Answers of an unexpected shape are not handled: a host answer that
    is JSON but not an object (an array, a string, a number, [null]) makes
    the uploader raise an attribute error, since only a dict has [get]; an
    object that reports success but whose ["data"] is not an object makes
    it raise a type error; an exception of the post itself (the network,
    a body that is not JSON) is passed on.  In each case the one post was
    made. *)
Theorem upload_of_unexpected_answers
    (W : Externals) (st : module_state) (pil_image : image) (t : trace) :
  let form := imgbb_form W st (b64encode W (save_png W pil_image)) t in
  let answer := requests_post_json W t form in
  let run := upload_to_imgbb W st pil_image t in
  snd run = t ++ [ImgbbPost form answer] /\
  (forall x, answer = Raise x -> fst run = Raise x) /\
  (forall data, answer = Ok data -> (forall fields, data <> JObj fields) ->
     fst run = Raise (AttributeError (type_name data) "get")) /\
  (forall fields d, answer = Ok (JObj fields) ->
     truthy_opt (dict_get "success" fields) = true ->
     dict_get "data" fields = Some d ->
     (forall inner, d <> JObj inner) ->
     fst run = Raise (TypeError (type_name d))).
Proof.
  intros form answer run. subst run. rewrite upload_to_imgbb_run. cbv zeta.
  fold form. fold answer. cbn [fst snd].
  split; [reflexivity|]. split; [|split].
  - intros x ->. reflexivity.
  - intros data -> Hshape. apply read_upload_answer_not_a_dict. exact Hshape.
  - intros fields d -> Hs Hd Hshape.
    apply read_upload_answer_data_not_a_dict; assumption.
Qed.

Lemma upload_of_unexpected_answers_witness :
  fst (upload_to_imgbb (Outage.host_says (JArr [])) Sample.state
         Sample.drawing [])
  = Raise (AttributeError "list" "get") /\
  fst (upload_to_imgbb
         (Outage.host_says (JObj [("success", JBool true); ("data", JNull)]))
         Sample.state Sample.drawing [])
  = Raise (TypeError "NoneType").
Proof.
  split.
  - destruct (upload_of_unexpected_answers
                (Outage.host_says (JArr [])) Sample.state Sample.drawing [])
      as (_ & _ & H & _).
    apply (H (JArr []) eq_refl). intros fields Heq. discriminate Heq.
  - destruct (upload_of_unexpected_answers
                (Outage.host_says
                   (JObj [("success", JBool true); ("data", JNull)]))
                Sample.state Sample.drawing [])
      as (_ & _ & _ & H).
    apply (H [("success", JBool true); ("data", JNull)] JNull eq_refl
             eq_refl eq_refl).
    intros inner Heq. discriminate Heq.
Defined.

(** X8.  The loop over the variations, for any number of pictures and any
    start of the numbering: when it returns, none of the pictures was the
    absence value, the records gathered before are kept in front, one
    record was added for each picture, in order and numbered one by one from
    the start, and three calls were made for each picture (removal, upload,
    upload), all of which passed.  When it raises, the calls it made are a
    beginning of that sequence. *)
Theorem variations_loop_numbers_and_keeps_order
    (W : Externals) (st : module_state) (imgs : list (option image))
    (i : Z) (response_data : list json) (t : trace) :
  let run := variations_loop W st i imgs response_data t in
  (forall out, fst run = Ok out ->
     exists urls evs,
       out = response_data ++ numbered i urls /\
       List.length urls = List.length imgs /\
       snd run = t ++ evs /\
       map label_of evs
       = flat_map (fun _ => [LRemove; LUpload; LUpload]) imgs /\
       Forall (passes W) evs /\
       Forall (fun img => img <> None) imgs) /\
  (forall x, fst run = Raise x ->
     exists evs rest,
       snd run = t ++ evs /\
       flat_map (fun _ => [LRemove; LUpload; LUpload]) imgs
       = map label_of evs ++ rest).
Proof.
  intros run. pose proof (variations_loop_run W st imgs i response_data t) as H.
  fold run in H. destruct run as [[out|x] t']; cbn [fst snd].
  - split; [|intros x Hx; discriminate Hx].
    intros out' Hout. injection Hout as <-. exact H.
  - split; [intros out Hout; discriminate Hout|].
    intros x' _. exact H.
Qed.

Lemma variations_loop_numbers_and_keeps_order_witness :
  exists urls evs,
    fst (variations_loop Sample.happy Sample.state 5
           [Some Sample.drawing; Some Sample.pet; Some Sample.drawing]
           [JStr "kept"] [])
    = Ok ([JStr "kept"] ++ numbered 5 urls) /\
    List.length urls = 3%nat /\
    map label_of evs
    = [LRemove; LUpload; LUpload; LRemove; LUpload; LUpload;
       LRemove; LUpload; LUpload].
Proof.
  destruct (variations_loop_numbers_and_keeps_order
              Sample.happy Sample.state
              [Some Sample.drawing; Some Sample.pet; Some Sample.drawing]
              5 [JStr "kept"] [])
    as [H _].
  destruct (H _ eq_refl) as (urls & evs & Hout & Hlen & _ & Hlab & _).
  exists urls, evs. split; [|split; [exact Hlen | exact Hlab]].
  rewrite <- Hout. reflexivity.
Defined.

(** X9.  What the generation caller returns comes from the first part with
    inline data and from nowhere else: it returns the absence value only
    when the service answered with a list of parts and no part had inline
    data; it returns a picture only when that picture is the decoding of
    the first part with inline data; and it raises only the service's
    exception, the type error of a response without a list of parts, or
    the decoder's exception on that first part, so that a part which cannot
    be decoded is never passed over for a later one. *)
Theorem generate_image_result_comes_from_first_inline
    (W : Externals) (st : module_state) (prompt : string)
    (input_image : image) (t : trace) :
  let answer := generate_content W t (client st) "gemini-2.5-flash-image"
                  prompt input_image in
  let outcome := fst (generate_image W st prompt input_image t) in
  (outcome = Ok None ->
     exists parts,
       answer = Ok (Some parts) /\
       Forall (fun q => inline_data q = None) parts) /\
  (forall img, outcome = Ok (Some img) ->
     exists parts before p after img_bytes,
       answer = Ok (Some parts) /\
       parts = before ++ p :: after /\
       Forall (fun q => inline_data q = None) before /\
       inline_data p = Some img_bytes /\
       Image_open W img_bytes = Ok img) /\
  (forall x, outcome = Raise x ->
     answer = Raise x \/
     (answer = Ok None /\ x = TypeError "NoneType") \/
     exists parts before p after img_bytes,
       answer = Ok (Some parts) /\
       parts = before ++ p :: after /\
       Forall (fun q => inline_data q = None) before /\
       inline_data p = Some img_bytes /\
       Image_open W img_bytes = Raise x).
Proof.
  intros answer outcome. subst outcome. rewrite generate_image_run. cbv zeta.
  fold answer. cbn [fst].
  destruct answer as [[parts|]|y]; cbn [scan_parts].
  - pose proof (first_inline_image_inv W parts) as Hinv.
    destruct (first_inline_image (Image_open W) parts) as [[img|]|x].
    + split; [intros H; discriminate H|]. split; [|intros x H; discriminate H].
      intros img' H. injection H as <-.
      destruct Hinv as (before & p & after & img_bytes & Hinv).
      exists parts, before, p, after, img_bytes. split; [reflexivity | exact Hinv].
    + split; [|split; [intros img H; discriminate H | intros x H; discriminate H]].
      intros _. exists parts. split; [reflexivity | exact Hinv].
    + split; [intros H; discriminate H|]. split; [intros img H; discriminate H|].
      intros x' H. injection H as <-. right. right.
      destruct Hinv as (before & p & after & img_bytes & Hinv).
      exists parts, before, p, after, img_bytes. split; [reflexivity | exact Hinv].
  - split; [intros H; discriminate H|]. split; [intros img H; discriminate H|].
    intros x H. injection H as <-. right. left. split; reflexivity.
  - split; [intros H; discriminate H|]. split; [intros img H; discriminate H|].
    intros x H. injection H as <-. left. reflexivity.
Qed.

Lemma generate_image_result_comes_from_first_inline_witness :
  (exists parts before p after img_bytes,
     generate_content Sample.happy [] (client Sample.state)
       "gemini-2.5-flash-image" default_prompt1 Sample.pet = Ok (Some parts) /\
     parts = before ++ p :: after /\
     Forall (fun q => inline_data q = None) before /\
     inline_data p = Some img_bytes /\
     Image_open Sample.happy img_bytes = Ok Sample.drawing) /\
  generate_content (Outage.no_content_at 0) [] (client Sample.state)
    "gemini-2.5-flash-image" default_prompt1 Sample.pet = Ok None.
Proof.
  split.
  - destruct (generate_image_result_comes_from_first_inline
                Sample.happy Sample.state default_prompt1 Sample.pet [])
      as (_ & H & _).
    exact (H Sample.drawing eq_refl).
  - destruct (generate_image_result_comes_from_first_inline
                (Outage.no_content_at 0) Sample.state default_prompt1
                Sample.pet [])
      as (_ & _ & H).
    destruct (H (TypeError "NoneType") eq_refl)
      as [Hbad|[[Hnone _]|(? & ? & ? & ? & ? & Hbad & _)]].
    + discriminate Hbad.
    + exact Hnone.
    + discriminate Hbad.
Defined.

(** X10.  A generation that comes back without a picture is found out at
    once when its response has no list of parts, and otherwise only when
    the turn of its variation comes.  A first generation without a list of
    parts ends the request with a type error: it is the only call.  A first
    generation with parts and no picture in them is followed by the
    generation for the second prompt all the same, and the request makes
    these two calls and no other.  A second generation without a list of
    parts ends the request there, after two calls.  When the second
    generation has parts and no picture and the calls pass, variation 1 is
    processed in full before the request fails: five calls are made, and
    the two uploads of variation 1 were taken by the host although the
    caller gets only the server error. *)
Theorem missing_picture_is_found_at_its_turn
    (W : Externals) (st : module_state) (file : bytes)
    (prompt1 prompt2 : option string) (t0 : trace)
    (e1 : event) (rest : list event) :
  let req := POST_api_generate file prompt1 prompt2 in
  issued t0 (snd (route W st req t0)) = e1 :: rest ->
  (partless e1 ->
     rest = [] /\
     fst (route W st req t0) = Raise (TypeError "NoneType") /\
     fst (serve W st req t0) = server_error) /\
  (pictureless e1 ->
     exists e2,
       rest = [e2] /\
       label_of e2 = LGenerate (or_default prompt2 default_prompt2) /\
       fst (serve W st req t0) = server_error) /\
  (forall e2 rest', rest = e2 :: rest' -> partless e2 ->
     rest' = [] /\
     fst (route W st req t0) = Raise (TypeError "NoneType") /\
     fst (serve W st req t0) = server_error) /\
  (~ pictureless e1 ->
     forall e2 rest', rest = e2 :: rest' -> pictureless e2 ->
     Forall (passes W) (e1 :: rest) ->
     exists r u h,
       rest' = [r; u; h] /\ label_of r = LRemove /\ hosted u /\ hosted h /\
       fst (route W st req t0) = Raise (AttributeError "NoneType" "save") /\
       fst (serve W st req t0) = server_error).
Proof.
  intros req Hsplit.
  destruct (route_generate W st file prompt1 prompt2 t0)
    as (evs & Htrace & _ & _ & Hfail & Hmissing & _).
  destruct (route_details W st file prompt1 prompt2 t0)
    as (evs' & Htrace' & _ & _ & Hturn & _ & Hsecond).
  fold req in Htrace, Htrace', Hfail, Hmissing.
  assert (Hsame : evs' = evs).
  { rewrite Htrace in Htrace'. exact (eq_sym (app_inv_head _ _ _ Htrace')). }
  subst evs'. rewrite Htrace, issued_app in Hsplit. subst evs.
  assert (Hpartless : forall pre e post,
            e1 :: rest = (pre ++ e :: post)%list -> partless e ->
            post = [] /\
            fst (route W st req t0) = Raise (TypeError "NoneType") /\
            fst (serve W st req t0) = server_error).
  { intros pre e post Heq (c & model & prompt & img & ->).
    assert (HIn : In (GenerateContent c model prompt img (Ok None))
                     (e1 :: rest))
      by (rewrite Heq; apply in_elt).
    destruct (Hfail _ (TypeError "NoneType") HIn eq_refl)
      as (Hraise & pre' & Hlast & Hpassed).
    rewrite Heq in Hlast.
    destruct (failure_is_last (passes W) pre post pre' _ _ Hlast Hpassed)
      as (_ & -> & _); [discriminate|].
    split; [reflexivity|]. split; [exact Hraise|].
    rewrite (serve_of_raise W st req t0 _ Hraise). reflexivity. }
  split; [|split; [|split]].
  - intros Hp. exact (Hpartless [] e1 rest eq_refl Hp).
  - intros Hpic.
    destruct (Hsecond e1 rest eq_refl (pictureless_passes W e1 Hpic))
      as (e2 & rest' & -> & Hlabel).
    destruct (Hturn e1 e2 rest' eq_refl) as [Hnone _].
    rewrite (Hnone Hpic). exists e2.
    split; [reflexivity|]. split; [exact Hlabel|].
    destruct (Hmissing e1 (or_introl eq_refl) Hpic) as (x & Hraise & _).
    rewrite (serve_of_raise W st req t0 x Hraise). reflexivity.
  - intros e2 rest' -> Hp. exact (Hpartless [e1] e2 rest' eq_refl Hp).
  - intros Hnot e2 rest' -> Hpic Hpass.
    destruct (Hturn e1 e2 rest' eq_refl) as [_ Hfive].
    destruct (Hfive Hnot Hpic Hpass) as (r & u & h & -> & Hr & Hu & Hh).
    exists r, u, h. split; [reflexivity|]. split; [exact Hr|].
    split; [exact Hu|]. split; [exact Hh|].
    destruct (Hmissing e2 (or_intror (or_introl eq_refl)) Hpic)
      as (x & Hraise & Hattr).
    rewrite (Hattr Hpass) in Hraise.
    split; [exact Hraise|].
    rewrite (serve_of_raise W st req t0 _ Hraise). reflexivity.
Qed.

Lemma missing_picture_is_found_at_its_turn_witness :
  let run := route (Sample.no_picture_at 1) Sample.state Sample.request [] in
  let run' := route (Outage.no_content_at 0) Sample.state Sample.request [] in
  (exists r u h,
     skipn 2 (snd run) = [r; u; h] /\ label_of r = LRemove /\
     hosted u /\ hosted h /\
     fst run = Raise (AttributeError "NoneType" "save")) /\
  (map label_of (snd run') = [LGenerate default_prompt1] /\
   fst run' = Raise (TypeError "NoneType")).
Proof.
  intros run run'. split.
  - assert (Hsplit :
      issued [] (snd (route (Sample.no_picture_at 1) Sample.state
                        (POST_api_generate Sample.photo None None) []))
      = GenerateContent (client Sample.state) "gemini-2.5-flash-image"
          default_prompt1 Sample.pet (Ok (Some Sample.with_picture))
        :: skipn 1 (snd run))
      by (vm_compute; reflexivity).
    destruct (missing_picture_is_found_at_its_turn
                (Sample.no_picture_at 1) Sample.state Sample.photo None None []
                _ _ Hsplit) as (_ & _ & _ & H).
    assert (Hnot : ~ pictureless
                       (GenerateContent (client Sample.state)
                          "gemini-2.5-flash-image" default_prompt1 Sample.pet
                          (Ok (Some Sample.with_picture)))).
    { intros (c & model & prompt & img & parts & Heq & Hnone).
      injection Heq as _ _ _ _ <-.
      inversion Hnone as [|? ? _ Htail]. inversion Htail as [|? ? Hbad _].
      discriminate Hbad. }
    destruct (H Hnot
                (GenerateContent (client Sample.state) "gemini-2.5-flash-image"
                   default_prompt2 Sample.pet (Ok (Some Sample.text_only)))
                (skipn 2 (snd run)))
      as (r & u & h & Hrest & Hr & Hu & Hh & Hraise & _).
    + vm_compute. reflexivity.
    + do 5 eexists. split; [reflexivity | repeat constructor].
    + vm_compute. repeat constructor.
    + exists r, u, h. repeat split; assumption.
  - assert (Hsplit :
      issued [] (snd (route (Outage.no_content_at 0) Sample.state
                        (POST_api_generate Sample.photo None None) []))
      = GenerateContent (client Sample.state) "gemini-2.5-flash-image"
          default_prompt1 Sample.pet (Ok None)
        :: skipn 1 (snd run'))
      by (vm_compute; reflexivity).
    destruct (missing_picture_is_found_at_its_turn
                (Outage.no_content_at 0) Sample.state Sample.photo None None []
                _ _ Hsplit) as (H & _).
    destruct H as (_ & Hraise & _); [do 4 eexists; reflexivity|].
    split; [reflexivity | exact Hraise].
Defined.
